(** * The Digital Chronicler: configuration record and orchestrator

    A shallow embedding of [Digital_chronical_backend.py].  Python objects
    whose attributes are assigned by methods become records threaded through
    a state-and-exception monad; the process-wide logger and the calls made
    to the hosted model are recorded in a [World] that travels with them. *)

From Stdlib Require Import ZArith List String Ascii Bool Lia.
From Stdlib Require Import DecimalString.
From Stdlib Require Import Floats.
Import ListNotations.

Local Open Scope string_scope.
Local Open Scope Z_scope.
Local Set Warnings "-inexact-float".

(* ====================================================================== *)
(** ** Python values used by the module *)
(* ====================================================================== *)

(** Instances of [Exception], the class every handler of the module names
    ([except Exception as e]).  [str(e)] is the message. *)
Inductive Exn : Type :=
| IndexError (msg : string)
| ZeroDivisionError (msg : string)
| OverflowError (msg : string)
| Exception (msg : string).

Definition str_exn (e : Exn) : string :=
  match e with
  | IndexError m | ZeroDivisionError m | OverflowError m | Exception m => m
  end.

(** What evaluating an expression or running a statement block produces. *)
Inductive Outcome (A : Type) : Type :=
| Return (a : A)
| Raise (e : Exn).
Arguments Return {A} a.
Arguments Raise {A} e.

(** [str(n)] for an [int]. *)
Definition str_int (n : Z) : string := NilZero.string_of_int (Z.to_int n).

(** [len(l)]. *)
Definition len {A : Type} (l : list A) : Z := Z.of_nat (List.length l).

(** The message of the [IndexError] a list raises for the index [i]: an
    index that does not fit the machine index type ([Py_ssize_t], 64 bits)
    is refused, in its own words, before the bounds are looked at. *)
Definition index_error_message (i : Z) : string :=
  if (i <? - 2 ^ 63) || (2 ^ 63 <=? i)
  then "cannot fit 'int' into an index-sized integer"
  else "list index out of range".

(** [l[i]] on a list: negative indices count from the end, anything outside
    [-len(l) <= i < len(l)] raises [IndexError]. *)
Definition getitem {A : Type} (l : list A) (i : Z) : Outcome A :=
  let j := if i <? 0 then i + len l else i in
  if (j <? 0) || (len l <=? j) then Raise (IndexError (index_error_message i))
  else match nth_error l (Z.to_nat j) with
       | Some x => Return x
       | None => Raise (IndexError (index_error_message i))
       end.

(** [s in t] on strings. *)
Fixpoint contains (s t : string) : bool :=
  String.prefix s t ||
  match t with
  | EmptyString => false
  | String _ t' => contains s t'
  end.

(* ====================================================================== *)
(** ** Effects: the logger, and a state monad with exceptions *)
(* ====================================================================== *)

Inductive Level : Type := INFO | ERROR.

(** The records handed to [logger], oldest first, and the prompts handed to
    the model's [invoke], oldest first. *)
Record World : Type := mkWorld {
  log : list (Level * string);
  invocations : list string
}.

Module PyM.

(** A block of statements over mutable state [S]: it ends in a value or in
    a raised exception, and the assignments made before a [raise] stay. *)
Definition M (S A : Type) : Type := S -> Outcome A * S.

Definition ret {S A} (a : A) : M S A := fun s => (Return a, s).

Definition raise {S A} (e : Exn) : M S A := fun s => (Raise e, s).

Definition bind {S A B} (m : M S A) (k : A -> M S B) : M S B :=
  fun s => match m s with
           | (Return a, s') => k a s'
           | (Raise e, s') => (Raise e, s')
           end.

Definition get {S} : M S S := fun s => (Return s, s).

Definition modify {S} (f : S -> S) : M S unit := fun s => (Return tt, f s).

(** Evaluate an expression that may raise. *)
Definition lift {S A} (o : Outcome A) : M S A := fun s => (o, s).

(** [try: body  except Exception as e: handler e]. *)
Definition try_except {S A} (body : M S A) (handler : Exn -> M S A) : M S A :=
  fun s => match body s with
           | (Return a, s') => (Return a, s')
           | (Raise e, s') => handler e s'
           end.

End PyM.
Import PyM.

Declare Scope py_scope.
Delimit Scope py_scope with py.
Notation "x <- m ;; k" := (bind m (fun x => k))
  (at level 61, m at next level, right associativity) : py_scope.
Notation "m ;; k" := (bind m (fun _ => k))
  (at level 61, right associativity) : py_scope.
Local Open Scope py_scope.

(* ====================================================================== *)
(** ** ChroniclerConfig *)
(* ====================================================================== *)

(** The fields of the dataclass that its methods and the orchestrator read;
    the remaining fields are plain settings no method of the module touches. *)
Record ChroniclerConfig : Type := mkConfig {
  groq_api_tokens : list string;
  current_token_index : Z;
  primary_model : string;
  backup_model : string
}.

Definition set_current_token_index (i : Z) (c : ChroniclerConfig) : ChroniclerConfig :=
  {| groq_api_tokens := groq_api_tokens c;
     current_token_index := i;
     primary_model := primary_model c;
     backup_model := backup_model c |}.

Definition logger_on_world (lv : Level) (msg : string) (w : World) : World :=
  {| log := log w ++ [(lv, msg)]; invocations := invocations w |}.

(** [ChroniclerConfig.get_current_groq_token]. *)
Definition get_current_groq_token (self : ChroniclerConfig) : Outcome string :=
  match groq_api_tokens self with
  | [] => Return ""
  | _ :: _ => getitem (groq_api_tokens self) (current_token_index self)
  end.

(** [ChroniclerConfig.rotate_groq_token], on the configuration and the world
    the logger writes to. *)
Definition rotate_groq_token : M (ChroniclerConfig * World) string :=
  self <- get ;;
  (if 1 <? len (groq_api_tokens (fst self)) then
     modify (fun '(c, w) =>
       (set_current_token_index
          ((current_token_index c + 1) mod len (groq_api_tokens c)) c, w)) ;;
     modify (fun '(c, w) =>
       (c, logger_on_world INFO
             ("Rotated to Groq token index " ++ str_int (current_token_index c)) w))
   else ret tt) ;;
  self <- get ;;
  lift (get_current_groq_token (fst self)).

(** [n] successive calls of [rotate_groq_token]; the state after the last
    one, whatever the calls returned or raised. *)
Fixpoint rotate_times (n : nat) (s : ChroniclerConfig * World) : ChroniclerConfig * World :=
  match n with
  | O => s
  | S n' => rotate_times n' (snd (rotate_groq_token s))
  end.

(* ====================================================================== *)
(** ** Article records, the model handle, floats *)
(* ====================================================================== *)

(** The dict every generation operation builds.  All keys but
    ["search_query"] are present in every record. *)
Record Article : Type := mkArticle {
  generated_title : string;
  generated_content : string;
  topic : string;
  source_name : string;
  url : string;
  generation_timestamp : string;
  image_url : string;
  search_query : option string
}.

(** What [ChatGroq.invoke] returns; only [.content] is read. *)
Record AIMessage : Type := mkAIMessage { content : string }.

(** A [ChatGroq] client: the two constructor arguments, and what the hosted
    service answers (or raises) for a prompt. *)
Record ChatGroq : Type := mkChatGroq {
  api_key : string;
  model_name : string;
  invoke : string -> Outcome AIMessage
}.

(** The line feed of the source's f-strings. *)
Definition nl : string := String "010"%char EmptyString.

(** [float(n)] for an [int]: round to nearest even, [OverflowError] beyond
    the range of a double. *)
Definition float_of_int (n : Z) : Outcome float :=
  let x := SF2Prim (binary_normalize prec emax n 0 false) in
  if is_infinity x then Raise (OverflowError "int too large to convert to float")
  else Return x.

(** [x / y] with [y] a float: [ZeroDivisionError] on a zero divisor. *)
Definition float_truediv (x y : float) : Outcome float :=
  if (y =? 0)%float then Raise (ZeroDivisionError "float division by zero")
  else Return (x / y)%float.

(** [n / y] with [n] an [int] and [y] a float. *)
Definition int_truediv_float (n : Z) (y : float) : Outcome float :=
  match float_of_int n with
  | Raise e => Raise e
  | Return x => float_truediv x y
  end.

(** The builtin [max(a, b)]: [b] replaces [a] only when [b > a]. *)
Definition py_max (a b : float) : float := if (a <? b)%float then b else a.

(* ====================================================================== *)
(** ** DigitalChronicler *)
(* ====================================================================== *)

(** The attributes [__init__] assigns.  A [datetime] is counted in
    microseconds, its resolution; subtracting two of them gives a [timedelta]
    in microseconds.  [model] is [None] or a client object, and a client
    object is true in a condition. *)
Record DigitalChronicler : Type := mkChronicler {
  config : ChroniclerConfig;
  articles_generated : Z;
  articles_researched : Z;
  start_time : Z;
  generated_articles : list Article;
  researched_stories : list Article;
  model : option ChatGroq
}.

Definition set_articles_generated (n : Z) (self : DigitalChronicler) : DigitalChronicler :=
  {| config := config self;
     articles_generated := n;
     articles_researched := articles_researched self;
     start_time := start_time self;
     generated_articles := generated_articles self;
     researched_stories := researched_stories self;
     model := model self |}.

Definition set_model (m : option ChatGroq) (self : DigitalChronicler) : DigitalChronicler :=
  {| config := config self;
     articles_generated := articles_generated self;
     articles_researched := articles_researched self;
     start_time := start_time self;
     generated_articles := generated_articles self;
     researched_stories := researched_stories self;
     model := m |}.

Definition set_config (c : ChroniclerConfig) (self : DigitalChronicler) : DigitalChronicler :=
  {| config := c;
     articles_generated := articles_generated self;
     articles_researched := articles_researched self;
     start_time := start_time self;
     generated_articles := generated_articles self;
     researched_stories := researched_stories self;
     model := model self |}.

(** The dict [get_stats] returns. *)
Record Stats : Type := mkStats {
  stats_articles_generated : Z;
  stats_articles_researched : Z;
  stats_articles_per_hour : float;
  stats_run_time_hours : float;
  stats_memory_stories : Z;
  stats_memory_urls : Z;
  stats_memory_titles : Z;
  stats_topic_trends : list (string * Z)
}.

(** The state a method of the orchestrator runs on. *)
Definition St : Type := (DigitalChronicler * World)%type.

Definition logger_info (msg : string) : M St unit :=
  modify (fun '(self, w) => (self, logger_on_world INFO msg w)).

Definition logger_error (msg : string) : M St unit :=
  modify (fun '(self, w) => (self, logger_on_world ERROR msg w)).

(** [self.model.invoke(prompt)]: the call is recorded, then answered. *)
Definition model_invoke (m : ChatGroq) (prompt : string) : M St AIMessage :=
  modify (fun '(self, w) =>
    (self, {| log := log w; invocations := invocations w ++ [prompt] |})) ;;
  lift (invoke m prompt).

(** [ChroniclerConfig()] given [os.environ]. *)
Definition ChroniclerConfig_default (environ : string -> option string) : ChroniclerConfig :=
  {| groq_api_tokens :=
       [match environ "GROQ_API_KEY" with Some v => v | None => "" end];
     current_token_index := 0;
     primary_model := "llama-3.3-70b-versatile";
     backup_model := "mistral-saba-24b" |}.

(** Truth value of a [str]. *)
Definition truthy (s : string) : bool :=
  match s with EmptyString => false | String _ _ => true end.

(** [DigitalChronicler.__init__].  [new_ChatGroq] is the constructor of the
    client library, [now] what [datetime.datetime.now()] reads. *)
Definition DigitalChronicler_init
    (environ : string -> option string)
    (new_ChatGroq : string -> string -> Outcome ChatGroq)
    (now : Z) (w : World) : Outcome unit * St :=
  let self :=
    {| config := ChroniclerConfig_default environ;
       articles_generated := 0;
       articles_researched := 0;
       start_time := now;
       generated_articles := [];
       researched_stories := [];
       model := None |} in
  (token <- lift (get_current_groq_token (config self)) ;;
   (if truthy token then
      try_except
        (key <- lift (get_current_groq_token (config self)) ;;
         m <- lift (new_ChatGroq key (primary_model (config self))) ;;
         modify (fun '(self, w) => (set_model (Some m) self, w)) ;;
         logger_info ("Initialized AI model: " ++ primary_model (config self)))
        (fun e => logger_error ("Error setting up AI model: " ++ str_exn e))
    else ret tt) ;;
   logger_info "Digital Chronicler initialized") (self, w).

(** The f-string [prompt] of [process_direct_input]. *)
Definition direct_input_prompt (title topic_ content_ : string) : string :=
  "Transform this user input into a well-structured article:" ++ nl ++ nl
  ++ "Title: " ++ title ++ nl
  ++ "Topic: " ++ topic_ ++ nl
  ++ "Content: " ++ content_ ++ nl ++ nl
  ++ "Create an engaging article with proper formatting and structure.".

Section Operations.

(** [datetime.isoformat] and [timedelta.total_seconds], of the standard
    library, on microsecond counts. *)
Variable isoformat : Z -> string.
Variable total_seconds : Z -> float.

(** The list literal [sample_articles] of [run_cycle]. *)
Definition sample_articles (now : Z) : list Article :=
  [ {| generated_title := "AI Revolution in News Generation";
       generated_content := "The Digital Chronicler represents a new era in automated journalism, where artificial intelligence transforms raw news data into compelling narratives. This innovative platform demonstrates the potential of AI to enhance rather than replace human journalism.";
       topic := "technology";
       source_name := "Demo Source";
       url := "https://example.com";
       generation_timestamp := isoformat now;
       image_url := "";
       search_query := None |} ].

(** The statements inside the [try] of [run_cycle]. *)
Definition run_cycle_body (now : Z) : M St (list Article) :=
  let sample_articles := sample_articles now in
  modify (fun '(self, w) =>
    (set_articles_generated (articles_generated self + len sample_articles) self, w)) ;;
  ret sample_articles.

(** The [except] clause of [run_cycle]. *)
Definition run_cycle_handler (e : Exn) : M St (list Article) :=
  logger_error ("Error in run_cycle: " ++ str_exn e) ;;
  ret [].

(** [DigitalChronicler.run_cycle].  The one call its [try] block makes
    outside the module is [datetime.datetime.now()], evaluated first, inside
    the list literal; [clock] is what that call does: it returns a reading
    or it raises. *)
Definition run_cycle_at (clock : Outcome Z) : M St (list Article) :=
  try_except (now <- lift clock ;; run_cycle_body now) run_cycle_handler.

(** [run_cycle] when the clock reads [now]. *)
Definition run_cycle (now : Z) : M St (list Article) := run_cycle_at (Return now).

(** The statements inside the [try] of [process_direct_input]. *)
Definition process_direct_input_body (now : Z) (title topic_ content_ : string)
  : M St (option Article) :=
  s <- get ;;
  match model (fst s) with
  | None =>
      ret (Some
        {| generated_title := "Custom Article: " ++ title;
           generated_content :=
             "**" ++ title ++ "**" ++ nl ++ nl ++ content_ ++ nl ++ nl
             ++ "This article was created using the Digital Chronicler platform.";
           topic := topic_;
           source_name := "Direct Input";
           url := "";
           generation_timestamp := isoformat now;
           image_url := "";
           search_query := None |})
  | Some m =>
      let prompt := direct_input_prompt title topic_ content_ in
      response <- model_invoke m prompt ;;
      ret (Some
        {| generated_title := title;
           generated_content := content response;
           topic := topic_;
           source_name := "Direct Input";
           url := "";
           generation_timestamp := isoformat now;
           image_url := "";
           search_query := None |})
  end.

(** The [except] clause of [process_direct_input]: log, return [None]. *)
Definition process_direct_input_handler (e : Exn) : M St (option Article) :=
  logger_error ("Error processing direct input: " ++ str_exn e) ;;
  ret None.

(** [DigitalChronicler.process_direct_input]. *)
Definition process_direct_input (now : Z) (title topic_ content_ : string)
  : M St (option Article) :=
  try_except (process_direct_input_body now title topic_ content_)
             process_direct_input_handler.

(** The list literal [similar_articles] of [generate_similar_articles]. *)
Definition similar_articles (now : Z) (article_name : string) : list Article :=
  [ {| generated_title := "Related Story: " ++ article_name ++ " Analysis";
       generated_content :=
         "This article explores topics related to '" ++ article_name
         ++ "' and provides additional context and analysis on the subject matter.";
       topic := "general";
       source_name := "Similar Articles Search";
       url := "https://example.com";
       generation_timestamp := isoformat now;
       image_url := "";
       search_query := Some article_name |} ].

(** The statements inside the [try] of [generate_similar_articles]. *)
Definition generate_similar_articles_body (now : Z) (article_name : string)
  : M St (list Article) :=
  let similar_articles := similar_articles now article_name in
  ret similar_articles.

(** The [except] clause of [generate_similar_articles]. *)
Definition generate_similar_articles_handler (e : Exn) : M St (list Article) :=
  logger_error ("Error generating similar articles: " ++ str_exn e) ;;
  ret [].

(** [DigitalChronicler.generate_similar_articles], with [clock] what the
    [datetime.datetime.now()] of its list literal does, as for [run_cycle]. *)
Definition generate_similar_articles_at (clock : Outcome Z) (article_name : string)
  : M St (list Article) :=
  try_except (now <- lift clock ;; generate_similar_articles_body now article_name)
             generate_similar_articles_handler.

(** [generate_similar_articles] when the clock reads [now]. *)
Definition generate_similar_articles (now : Z) (article_name : string)
  : M St (list Article) :=
  generate_similar_articles_at (Return now) article_name.

(** [runtime_hours] of [get_stats]. *)
Definition runtime_hours (now : Z) (self : DigitalChronicler) : float :=
  (total_seconds (now - start_time self) / 3600)%float.

(** [DigitalChronicler.get_stats]; it has no handler, so what the division
    raises leaves the method. *)
Definition get_stats (now : Z) : M St Stats :=
  s <- get ;;
  let self := fst s in
  let runtime_hours := runtime_hours now self in
  per_hour <- lift (int_truediv_float (articles_generated self)
                                      (py_max runtime_hours 0.01%float)) ;;
  ret {| stats_articles_generated := articles_generated self;
         stats_articles_researched := articles_researched self;
         stats_articles_per_hour := per_hour;
         stats_run_time_hours := runtime_hours;
         stats_memory_stories := 0;
         stats_memory_urls := 0;
         stats_memory_titles := 0;
         stats_topic_trends := [("technology", 5); ("science", 3); ("politics", 2)] |}.

(** [self.config.rotate_groq_token()] on an orchestrator. *)
Definition config_rotate_groq_token : M St string :=
  fun '(self, w) =>
    let '(r, (c, w')) := rotate_groq_token (config self, w) in
    (r, (set_config c self, w')).

(** A call a client makes on a constructed orchestrator. *)
Inductive Call : Type :=
| Call_run_cycle (now : Z)
| Call_process_direct_input (now : Z) (title topic_ content_ : string)
| Call_generate_similar_articles (now : Z) (article_name : string)
| Call_get_stats (now : Z)
| Call_rotate_groq_token.

(** The state a call leaves behind, whether it returned or raised. *)
Definition exec (c : Call) (s : St) : St :=
  match c with
  | Call_run_cycle now => snd (run_cycle now s)
  | Call_process_direct_input now t p c => snd (process_direct_input now t p c s)
  | Call_generate_similar_articles now a => snd (generate_similar_articles now a s)
  | Call_get_stats now => snd (get_stats now s)
  | Call_rotate_groq_token => snd (config_rotate_groq_token s)
  end.

Definition exec_all (cs : list Call) (s : St) : St := fold_left (fun s c => exec c s) cs s.

(** What a call adds to [articles_generated]. *)
Definition generated_by (c : Call) : Z :=
  match c with
  | Call_run_cycle now => len (sample_articles now)
  | _ => 0
  end.

End Operations.

(* ====================================================================== *)
(** ** Sequences of calls *)
(* ====================================================================== *)

(** What [n] successive calls of [rotate_groq_token] return or raise, in
    order. *)
Fixpoint rotate_outputs (n : nat) (s : ChroniclerConfig * World) : list (Outcome string) :=
  match n with
  | O => []
  | S n' => fst (rotate_groq_token s) :: rotate_outputs n' (snd (rotate_groq_token s))
  end.

Definition is_run_cycle (c : Call) : bool :=
  match c with
  | Call_run_cycle _ => true
  | _ => false
  end.

(** How many of the calls are [run_cycle]. *)
Definition count_run_cycle (cs : list Call) : Z := len (filter is_run_cycle cs).

(** The prompt a call builds, if it is a [process_direct_input]. *)
Definition prompt_of_call (c : Call) : list string :=
  match c with
  | Call_process_direct_input _ title topic_ content_ =>
      [direct_input_prompt title topic_ content_]
  | _ => []
  end.

(** The prompts the [process_direct_input] calls of a sequence build, in
    order. *)
Definition prompts_of (cs : list Call) : list string := flat_map prompt_of_call cs.

(** Everything an orchestrator holds but the article counter and the
    position in the credential list. *)
Definition fixed_part (self : DigitalChronicler) :=
  (groq_api_tokens (config self), primary_model (config self),
   backup_model (config self), articles_researched self, start_time self,
   generated_articles self, researched_stories self, model self).

(** The calls that can write to the log: a [process_direct_input], when its
    model fails, and a rotation, when it advances. *)
Definition is_logging_call (c : Call) : bool :=
  match c with
  | Call_process_direct_input _ _ _ _ => true
  | Call_rotate_groq_token => true
  | _ => false
  end.

(** The two kinds of line a call on a constructed orchestrator can log. *)
Definition is_call_log_line (entry : Level * string) : Prop :=
  (exists e : Exn, entry = (ERROR, "Error processing direct input: " ++ str_exn e)) \/
  (exists i : Z, entry = (INFO, "Rotated to Groq token index " ++ str_int i)).

(* ====================================================================== *)
(** ** Sample inputs for concrete runs *)
(* ====================================================================== *)

Module Sample.

Definition iso (_ : Z) : string := "2024-05-01T12:00:00".

Definition defaults (tokens : list string) (i : Z) : ChroniclerConfig :=
  mkConfig tokens i "llama-3.3-70b-versatile" "mistral-saba-24b".

(** No [GROQ_API_KEY] in the environment. *)
Definition fresh : St :=
  snd (DigitalChronicler_init (fun _ => None)
         (fun _ _ => Raise (Exception "no client")) 0 (mkWorld [] [])).

(** A key in the environment, and a client library that refuses it. *)
Definition refused : St :=
  snd (DigitalChronicler_init (fun _ => Some "gsk_key")
         (fun _ _ => Raise (Exception "invalid api key")) 0 (mkWorld [] [])).

End Sample.

(* ====================================================================== *)
(** ** Substrings *)
(* ====================================================================== *)

Module Str.

Lemma append_assoc (a b c : string) : (a ++ b) ++ c = a ++ (b ++ c).
Proof. induction a as [|x a IH]; simpl; [reflexivity | now rewrite IH]. Qed.

Lemma prefix_append (s b : string) : String.prefix s (s ++ b) = true.
Proof.
  induction s as [|x s IH]; simpl.
  - destruct b; reflexivity.
  - destruct (ascii_dec x x) as [_|N]; [exact IH | now elim N].
Qed.

Lemma prefix_split (s : string) :
  forall t, String.prefix s t = true -> exists b, t = s ++ b.
Proof.
  induction s as [|x s IH]; intros t H.
  - exists t. reflexivity.
  - destruct t as [|y t]; simpl in H; [discriminate|].
    destruct (ascii_dec x y) as [->|_]; [|discriminate].
    destruct (IH t H) as [b ->]. exists b. reflexivity.
Qed.

Lemma contains_unfold (s t : string) :
  contains s t =
  String.prefix s t ||
  match t with EmptyString => false | String _ t' => contains s t' end.
Proof. destruct t; reflexivity. Qed.

Lemma contains_here (s b : string) : contains s (s ++ b) = true.
Proof. rewrite contains_unfold, prefix_append. reflexivity. Qed.

Lemma contains_append (s a t : string) :
  contains s t = true -> contains s (a ++ t) = true.
Proof.
  intros H. induction a as [|x a IH]; simpl; [exact H|].
  rewrite IH. apply orb_true_r.
Qed.

(** [contains] decides "occurs as a contiguous piece". *)
Lemma contains_spec (s t : string) :
  contains s t = true <-> exists a b, t = a ++ s ++ b.
Proof.
  split.
  - induction t as [|y t IH]; simpl; intros H.
    + rewrite orb_false_r in H. destruct s; [|discriminate].
      exists "", "". reflexivity.
    + apply orb_true_iff in H. destruct H as [H|H].
      * destruct (prefix_split s (String y t) H) as [b E].
        exists "", b. exact E.
      * destruct (IH H) as (a & b & ->). exists (String y a), b. reflexivity.
  - intros (a & b & ->). apply contains_append, contains_here.
Qed.

Lemma contains_middle (a s b : string) : contains s (a ++ s ++ b) = true.
Proof. apply contains_spec. now exists a, b. Qed.

End Str.

(* ====================================================================== *)
(** ** Credential rotation *)
(* ====================================================================== *)

Module Config.

(** One rotation with more than one credential: the index advances modulo
    the count, the list stays, one line is logged. *)
Lemma rotate_advances (c : ChroniclerConfig) (w : World) :
  1 < len (groq_api_tokens c) ->
  snd (rotate_groq_token (c, w)) =
    (set_current_token_index
       ((current_token_index c + 1) mod len (groq_api_tokens c)) c,
     logger_on_world INFO
       ("Rotated to Groq token index "
        ++ str_int ((current_token_index c + 1) mod len (groq_api_tokens c))) w).
Proof.
  intros H. apply Z.ltb_lt in H.
  unfold rotate_groq_token, bind, get, modify, lift, ret. cbn [fst snd].
  rewrite H. reflexivity.
Qed.

(** One rotation with at most one credential: nothing moves. *)
Lemma rotate_noop (c : ChroniclerConfig) (w : World) :
  len (groq_api_tokens c) <= 1 ->
  rotate_groq_token (c, w) = (get_current_groq_token c, (c, w)).
Proof.
  intros H. apply Z.ltb_ge in H.
  unfold rotate_groq_token, bind, get, modify, lift, ret. cbn [fst snd].
  rewrite H. reflexivity.
Qed.

(** [k + 1] rotations from any index, in range or not. *)
Lemma rotate_times_index (k : nat) :
  forall (c : ChroniclerConfig) (w : World),
    1 < len (groq_api_tokens c) ->
    fst (rotate_times (S k) (c, w)) =
      set_current_token_index
        ((current_token_index c + Z.of_nat (S k)) mod len (groq_api_tokens c)) c.
Proof.
  induction k as [|k IH]; intros c w H.
  - cbn [rotate_times]. rewrite rotate_advances by assumption. reflexivity.
  - change (rotate_times (S (S k)) (c, w))
      with (rotate_times (S k) (snd (rotate_groq_token (c, w)))).
    rewrite rotate_advances by assumption.
    rewrite IH by (cbn; assumption).
    unfold set_current_token_index; cbn [groq_api_tokens current_token_index
      primary_model backup_model].
    f_equal.
    rewrite Zplus_mod_idemp_l. f_equal. lia.
Qed.

Lemma set_current_token_index_same (c : ChroniclerConfig) :
  set_current_token_index (current_token_index c) c = c.
Proof. destruct c; reflexivity. Qed.

(** An index counted from the end and the same index reduced modulo the
    length select the same element. *)
Lemma getitem_inside {A : Type} (l : list A) (i : Z) :
  - len l <= i < len l ->
  exists x, getitem l i = Return x /\
            nth_error l (Z.to_nat (i mod len l)) = Some x.
Proof.
  intros H.
  assert (E : (if i <? 0 then i + len l else i) = i mod len l).
  { destruct (Z.ltb_spec i 0) as [Hneg|Hpos].
    - rewrite <- (Z_mod_plus_full i 1 (len l)).
      rewrite Z.mod_small by lia. lia.
    - rewrite Z.mod_small by lia. reflexivity. }
  assert (Hj : 0 <= i mod len l < len l) by (apply Z.mod_pos_bound; lia).
  unfold getitem. rewrite E. cbv zeta.
  replace (i mod len l <? 0) with false by (symmetry; apply Z.ltb_ge; lia).
  replace (len l <=? i mod len l) with false by (symmetry; apply Z.leb_gt; lia).
  cbn [orb].
  destruct (nth_error l (Z.to_nat (i mod len l))) as [x|] eqn:En.
  - exists x. split; reflexivity.
  - apply nth_error_None in En. unfold len in *. lia.
Qed.

Lemma getitem_mod {A : Type} (l : list A) (i : Z) :
  - len l <= i < len l ->
  getitem l (i mod len l) = getitem l i.
Proof.
  intros H.
  assert (Hj : 0 <= i mod len l < len l) by (apply Z.mod_pos_bound; lia).
  destruct (getitem_inside l i H) as (x & -> & Hx).
  destruct (getitem_inside l (i mod len l)) as (y & -> & Hy); [lia|].
  rewrite Z.mod_mod in Hy by lia. rewrite Hx in Hy. injection Hy as <-.
  reflexivity.
Qed.

Lemma get_current_groq_token_mod (c : ChroniclerConfig) :
  - len (groq_api_tokens c) <= current_token_index c < len (groq_api_tokens c) ->
  get_current_groq_token
    (set_current_token_index
       (current_token_index c mod len (groq_api_tokens c)) c)
  = get_current_groq_token c.
Proof.
  intros H. unfold get_current_groq_token, set_current_token_index.
  cbn [groq_api_tokens current_token_index].
  destruct (groq_api_tokens c) as [|t ts] eqn:E; [reflexivity|].
  apply getitem_mod. exact H.
Qed.

End Config.

(** C8: with an empty credential list, [get_current_groq_token] returns the
    empty string whatever the index is; the indexing that could raise is not
    evaluated. *)
Theorem get_current_groq_token_empty (c : ChroniclerConfig) :
  groq_api_tokens c = [] ->
  get_current_groq_token c = Return "".
Proof.
  intros H. unfold get_current_groq_token. rewrite H. reflexivity.
Qed.

Lemma get_current_groq_token_empty_witness :
  get_current_groq_token (mkConfig [] 7 "llama-3.3-70b-versatile" "mistral-saba-24b")
  = Return "".
Proof.
  apply (get_current_groq_token_empty
           (mkConfig [] 7 "llama-3.3-70b-versatile" "mistral-saba-24b")).
  reflexivity.
Defined.

(** C3, as stated, fails: with two credentials and the index 5, two
    rotations leave the index at 1, not at 5. *)
Lemma rotate_n_times_not_identity :
  ~ (forall (c : ChroniclerConfig) (w : World),
       2 <= len (groq_api_tokens c) ->
       current_token_index
         (fst (rotate_times (List.length (groq_api_tokens c)) (c, w)))
       = current_token_index c).
Proof.
  intros H.
  specialize (H (mkConfig ["k1"; "k2"] 5 "llama-3.3-70b-versatile" "mistral-saba-24b")
                (mkWorld [] [])).
  cbv in H. specialize (H ltac:(discriminate)). discriminate H.
Qed.

(** C3, amended: with N >= 2 credentials and the index a position of the
    list (0 <= index < N), N rotations give back the configuration, hence the
    index and the current credential.  From any other index they end at
    index mod N: the current credential is still restored when the index
    counted from the end (-N <= index < 0), the index itself is not.  With
    N <= 1 credentials one rotation changes nothing and gives what
    [get_current_groq_token] gives on the unchanged configuration. *)
Theorem rotate_n_times_restores (c : ChroniclerConfig) (w : World) :
  let n := len (groq_api_tokens c) in
  let c' := fst (rotate_times (List.length (groq_api_tokens c)) (c, w)) in
  (2 <= n ->
     current_token_index c' = current_token_index c mod n /\
     groq_api_tokens c' = groq_api_tokens c) /\
  (2 <= n -> 0 <= current_token_index c < n -> c' = c) /\
  (2 <= n -> - n <= current_token_index c < n ->
     get_current_groq_token c' = get_current_groq_token c) /\
  (n <= 1 ->
     rotate_groq_token (c, w) = (get_current_groq_token c, (c, w))).
Proof.
  intros n c'.
  assert (Hn : 2 <= n ->
               c' = set_current_token_index (current_token_index c mod n) c).
  { intros H. subst n c'. unfold len in *.
    destruct (List.length (groq_api_tokens c)) as [|k] eqn:E; [lia|].
    rewrite Config.rotate_times_index by (unfold len; lia).
    unfold len. rewrite E. f_equal.
    replace (current_token_index c + Z.of_nat (S k))
      with (current_token_index c + 1 * Z.of_nat (S k)) by lia.
    apply Z_mod_plus_full. }
  split; [|split; [|split]].
  - intros H. rewrite (Hn H). split; reflexivity.
  - intros H Hi. rewrite (Hn H), Z.mod_small by assumption.
    apply Config.set_current_token_index_same.
  - intros H Hi. rewrite (Hn H). apply Config.get_current_groq_token_mod. exact Hi.
  - apply Config.rotate_noop.
Qed.

Lemma rotate_n_times_restores_witness :
  let c := mkConfig ["k1"; "k2"; "k3"] 1 "llama-3.3-70b-versatile" "mistral-saba-24b" in
  let b := mkConfig ["k1"; "k2"; "k3"] (-1) "llama-3.3-70b-versatile" "mistral-saba-24b" in
  let d := mkConfig ["k1"] 0 "llama-3.3-70b-versatile" "mistral-saba-24b" in
  let w := mkWorld [] [] in
  fst (rotate_times 3 (c, w)) = c /\
  current_token_index (fst (rotate_times 3 (b, w))) = 2 /\
  get_current_groq_token (fst (rotate_times 3 (b, w))) = Return "k3" /\
  rotate_groq_token (d, w) = (Return "k1", (d, w)).
Proof.
  intros c b d w.
  pose proof (rotate_n_times_restores c w) as Hc.
  pose proof (rotate_n_times_restores b w) as Hb.
  pose proof (rotate_n_times_restores d w) as Hd.
  cbv zeta in Hc, Hb, Hd.
  destruct Hc as (_ & Hc & _ & _).
  destruct Hb as (Hb1 & _ & Hb2 & _).
  destruct Hd as (_ & _ & _ & Hd).
  assert (H2 : 2 <= len (groq_api_tokens c)) by (unfold len; simpl; lia).
  assert (Hi : 0 <= current_token_index c < len (groq_api_tokens c))
    by (unfold len; simpl; lia).
  assert (H2b : 2 <= len (groq_api_tokens b)) by (unfold len; simpl; lia).
  assert (Hib : - len (groq_api_tokens b) <= current_token_index b
                < len (groq_api_tokens b))
    by (unfold len; simpl; lia).
  assert (H1 : len (groq_api_tokens d) <= 1) by (unfold len; simpl; lia).
  split; [exact (Hc H2 Hi)|].
  split; [exact (proj1 (Hb1 H2b))|].
  split; [exact (Hb2 H2b Hib) | exact (Hd H1)].
Defined.

(* ====================================================================== *)
(** ** The orchestrator's generation operations *)
(* ====================================================================== *)

Module Chronicler.

(** The record [process_direct_input] builds when no model is configured;
    neither the orchestrator nor the world changes. *)
Lemma process_direct_input_no_model
    (isoformat : Z -> string) (now : Z) (title topic_ content_ : string)
    (self : DigitalChronicler) (w : World) :
  model self = None ->
  process_direct_input isoformat now title topic_ content_ (self, w) =
    (Return (Some
       {| generated_title := "Custom Article: " ++ title;
          generated_content :=
            "**" ++ title ++ "**" ++ nl ++ nl ++ content_ ++ nl ++ nl
            ++ "This article was created using the Digital Chronicler platform.";
          topic := topic_;
          source_name := "Direct Input";
          url := "";
          generation_timestamp := isoformat now;
          image_url := "";
          search_query := None |}),
     (self, w)).
Proof.
  intros H.
  unfold process_direct_input, try_except, process_direct_input_body, bind, get.
  cbn [fst]. rewrite H. reflexivity.
Qed.

(** With a model configured the prompt is sent, and the body ends the way
    the service answers. *)
Lemma process_direct_input_body_model
    (isoformat : Z -> string) (now : Z) (title topic_ content_ : string)
    (self : DigitalChronicler) (w : World) (m : ChatGroq) :
  model self = Some m ->
  process_direct_input_body isoformat now title topic_ content_ (self, w) =
    let w' := {| log := log w;
                 invocations := invocations w
                                ++ [direct_input_prompt title topic_ content_] |} in
    match invoke m (direct_input_prompt title topic_ content_) with
    | Return response =>
        (Return (Some
           {| generated_title := title;
              generated_content := content response;
              topic := topic_;
              source_name := "Direct Input";
              url := "";
              generation_timestamp := isoformat now;
              image_url := "";
              search_query := None |}),
         (self, w'))
    | Raise e => (Raise e, (self, w'))
    end.
Proof.
  intros H.
  unfold process_direct_input_body, bind, get, model_invoke, modify, lift, ret, bind.
  cbn [fst]. rewrite H. cbn zeta.
  destruct (invoke m (direct_input_prompt title topic_ content_)); reflexivity.
Qed.

Lemma run_cycle_eq (isoformat : Z -> string) (now : Z)
    (self : DigitalChronicler) (w : World) :
  run_cycle isoformat now (self, w) =
    (Return (sample_articles isoformat now),
     (set_articles_generated
        (articles_generated self + len (sample_articles isoformat now)) self,
      w)).
Proof. reflexivity. Qed.

Lemma generate_similar_articles_eq (isoformat : Z -> string) (now : Z)
    (article_name : string) (s : St) :
  generate_similar_articles isoformat now article_name s =
    (Return (similar_articles isoformat now article_name), s).
Proof. reflexivity. Qed.

End Chronicler.

(** C1, as stated, fails: without a model, the topic of the returned record
    is the caller's topic; for the topic "general" it is not "Direct Input". *)
Lemma process_direct_input_topic_is_not_fixed :
  ~ (forall (isoformat : Z -> string) (now : Z) (title topic_ content_ : string)
            (self : DigitalChronicler) (w : World),
       model self = None ->
       exists a,
         fst (process_direct_input isoformat now title topic_ content_ (self, w))
         = Return (Some a) /\
         topic a = "Direct Input" /\ source_name a = "Direct Input").
Proof.
  intros H.
  destruct (H (fun _ => "2024-01-01T00:00:00") 0 "T" "general" "C"
              (mkChronicler (mkConfig [""] 0 "llama-3.3-70b-versatile" "mistral-saba-24b")
                            0 0 0 [] [] None)
              (mkWorld [] []) eq_refl) as (a & Ha & Ht & _).
  cbv in Ha. injection Ha as <-. discriminate Ht.
Qed.

(** C1, amended: without a model, [process_direct_input] returns a record
    whose source is "Direct Input" and whose topic is the topic argument it
    was called with. *)
Theorem process_direct_input_no_model_topic_source
    (isoformat : Z -> string) (now : Z) (title topic_ content_ : string)
    (self : DigitalChronicler) (w : World) :
  model self = None ->
  exists a,
    fst (process_direct_input isoformat now title topic_ content_ (self, w))
    = Return (Some a) /\
    topic a = topic_ /\ source_name a = "Direct Input".
Proof.
  intros H. rewrite Chronicler.process_direct_input_no_model by exact H.
  eexists. split; [reflexivity|]. split; reflexivity.
Qed.

Lemma process_direct_input_no_model_topic_source_witness :
  exists a,
    fst (process_direct_input (fun _ => "2024-01-01T00:00:00") 0 "T" "general" "C"
           (mkChronicler (mkConfig [""] 0 "llama-3.3-70b-versatile" "mistral-saba-24b")
                         0 0 0 [] [] None,
            mkWorld [] []))
    = Return (Some a) /\
    topic a = "general" /\ source_name a = "Direct Input".
Proof.
  apply (process_direct_input_no_model_topic_source
           (fun _ => "2024-01-01T00:00:00") 0 "T" "general" "C"
           (mkChronicler (mkConfig [""] 0 "llama-3.3-70b-versatile" "mistral-saba-24b")
                         0 0 0 [] [] None)
           (mkWorld [] [])).
  reflexivity.
Defined.

(** C6: without a model, [process_direct_input] returns a record whose
    content contains the title and the content it was given, whose source is
    exactly "Direct Input", and it sends nothing to a model: the orchestrator
    and the world, the list of invocations with it, are left as they were. *)
Theorem process_direct_input_no_model_embeds
    (isoformat : Z -> string) (now : Z) (title topic_ content_ : string)
    (self : DigitalChronicler) (w : World) :
  model self = None ->
  exists a,
    process_direct_input isoformat now title topic_ content_ (self, w)
    = (Return (Some a), (self, w)) /\
    contains title (generated_content a) = true /\
    contains content_ (generated_content a) = true /\
    source_name a = "Direct Input" /\
    invocations (snd (snd (process_direct_input isoformat now title topic_ content_
                             (self, w))))
    = invocations w.
Proof.
  intros H. rewrite Chronicler.process_direct_input_no_model by exact H.
  eexists. split; [reflexivity|]. cbn [generated_content source_name snd].
  repeat split.
  - apply Str.contains_middle.
  - apply Str.contains_spec.
    exists ("**" ++ title ++ "**" ++ nl ++ nl),
           (nl ++ nl
            ++ "This article was created using the Digital Chronicler platform.").
    rewrite !Str.append_assoc. reflexivity.
Qed.

Lemma process_direct_input_no_model_embeds_witness :
  exists a,
    process_direct_input (fun _ => "2024-01-01T00:00:00") 0 "T" "general" "C"
      (mkChronicler (mkConfig [""] 0 "llama-3.3-70b-versatile" "mistral-saba-24b")
                    0 0 0 [] [] None,
       mkWorld [] ["earlier prompt"])
    = (Return (Some a),
       (mkChronicler (mkConfig [""] 0 "llama-3.3-70b-versatile" "mistral-saba-24b")
                     0 0 0 [] [] None,
        mkWorld [] ["earlier prompt"])) /\
    contains "T" (generated_content a) = true /\
    contains "C" (generated_content a) = true /\
    source_name a = "Direct Input".
Proof.
  destruct (process_direct_input_no_model_embeds
              (fun _ => "2024-01-01T00:00:00") 0 "T" "general" "C"
              (mkChronicler (mkConfig [""] 0 "llama-3.3-70b-versatile" "mistral-saba-24b")
                            0 0 0 [] [] None)
              (mkWorld [] ["earlier prompt"]) eq_refl)
    as (a & H1 & H2 & H3 & H4 & _).
  exists a. repeat split; assumption.
Defined.

(** C2: with a model configured, if its invocation on the prompt raises,
    [process_direct_input] returns [None]: no record is built in its place.
    The orchestrator is left as it was, the prompt has been sent once and one
    error line carrying the exception's message has been logged. *)
Theorem process_direct_input_adapter_raises
    (isoformat : Z -> string) (now : Z) (title topic_ content_ : string)
    (self : DigitalChronicler) (w : World) (m : ChatGroq) (e : Exn) :
  model self = Some m ->
  invoke m (direct_input_prompt title topic_ content_) = Raise e ->
  process_direct_input isoformat now title topic_ content_ (self, w) =
    (Return None,
     (self,
      {| log := log w ++ [(ERROR, "Error processing direct input: " ++ str_exn e)];
         invocations := invocations w
                        ++ [direct_input_prompt title topic_ content_] |})).
Proof.
  intros Hm He.
  unfold process_direct_input, try_except.
  rewrite (Chronicler.process_direct_input_body_model _ _ _ _ _ _ _ m Hm).
  cbn zeta. rewrite He. reflexivity.
Qed.

Lemma process_direct_input_adapter_raises_witness :
  let m := mkChatGroq "gsk_key" "llama-3.3-70b-versatile"
             (fun _ => Raise (Exception "connection timed out")) in
  let self := mkChronicler
                (mkConfig ["gsk_key"] 0 "llama-3.3-70b-versatile" "mistral-saba-24b")
                0 0 0 [] [] (Some m) in
  fst (process_direct_input (fun _ => "2024-01-01T00:00:00") 0 "T" "general" "C"
         (self, mkWorld [] []))
  = Return None.
Proof.
  intros m self.
  rewrite (process_direct_input_adapter_raises
             (fun _ => "2024-01-01T00:00:00") 0 "T" "general" "C"
             self (mkWorld [] []) m (Exception "connection timed out")
             eq_refl eq_refl).
  reflexivity.
Defined.

(** C4: every call of [run_cycle] returns a non-empty list and adds the
    length of that list to [articles_generated], changing nothing else; after
    two calls in a row the counter is the initial one plus both lengths. *)
Theorem run_cycle_counts
    (isoformat : Z -> string) (now1 now2 : Z)
    (self : DigitalChronicler) (w : World) :
  exists l1 l2,
    run_cycle isoformat now1 (self, w) =
      (Return l1, (set_articles_generated (articles_generated self + len l1) self, w)) /\
    l1 <> [] /\
    fst (run_cycle isoformat now2 (snd (run_cycle isoformat now1 (self, w))))
    = Return l2 /\
    l2 <> [] /\
    articles_generated
      (fst (snd (run_cycle isoformat now2 (snd (run_cycle isoformat now1 (self, w))))))
    = articles_generated self + len l1 + len l2.
Proof.
  exists (sample_articles isoformat now1), (sample_articles isoformat now2).
  rewrite !Chronicler.run_cycle_eq. cbn [fst snd].
  rewrite Chronicler.run_cycle_eq. cbn [fst snd].
  split; [reflexivity|].
  split; [discriminate|].
  split; [reflexivity|].
  split; [discriminate|].
  reflexivity.
Qed.

(** C7: for every seed label, [generate_similar_articles] returns a list of
    one record; its title and its content contain the label, and its
    [search_query] is the label. *)
Theorem generate_similar_articles_embeds
    (isoformat : Z -> string) (now : Z) (article_name : string) (s : St) :
  exists a,
    fst (generate_similar_articles isoformat now article_name s) = Return [a] /\
    contains article_name (generated_title a) = true /\
    contains article_name (generated_content a) = true /\
    search_query a = Some article_name.
Proof.
  rewrite Chronicler.generate_similar_articles_eq.
  eexists. split; [reflexivity|].
  cbn [generated_title generated_content search_query].
  split; [apply Str.contains_middle|].
  split; [apply Str.contains_middle | reflexivity].
Qed.

(** C9: [run_cycle] and [generate_similar_articles] never end in an
    exception, on any state and whether the clock call inside their [try]
    returns or raises; when it raises, the [except] clause turns the
    exception into the empty list: the orchestrator is left as it was, the
    counter included, and one error line with the exception's message is
    logged. *)
Theorem demo_operations_never_raise
    (isoformat : Z -> string) (clock : Outcome Z) (e : Exn) (now : Z)
    (article_name : string) (s : St) :
  (exists l, fst (run_cycle_at isoformat clock s) = Return l) /\
  (exists l,
     fst (generate_similar_articles_at isoformat clock article_name s) = Return l) /\
  run_cycle_at isoformat (Raise e) s =
    (Return [],
     (fst s, logger_on_world ERROR ("Error in run_cycle: " ++ str_exn e) (snd s))) /\
  generate_similar_articles_at isoformat (Raise e) article_name s =
    (Return [],
     (fst s,
      logger_on_world ERROR
        ("Error generating similar articles: " ++ str_exn e) (snd s))) /\
  run_cycle isoformat now s = run_cycle_at isoformat (Return now) s /\
  generate_similar_articles isoformat now article_name s
  = generate_similar_articles_at isoformat (Return now) article_name s.
Proof.
  destruct s as [self w].
  split; [|split; [|split; [|split; [|split]]]]; try reflexivity.
  - destruct clock as [t|x]; eexists; reflexivity.
  - destruct clock as [t|x]; eexists; reflexivity.
Qed.

Lemma demo_operations_never_raise_witness :
  let s := (mkChronicler
              (mkConfig [""] 0 "llama-3.3-70b-versatile" "mistral-saba-24b")
              4 0 0 [] [] None,
            mkWorld [] []) in
  let e := OverflowError "timestamp out of range for platform time_t" in
  run_cycle_at (fun _ => "2024-01-01T00:00:00") (Raise e) s
  = (Return [],
     (fst s,
      mkWorld [(ERROR, "Error in run_cycle: timestamp out of range for platform time_t")]
              [])) /\
  generate_similar_articles_at (fun _ => "2024-01-01T00:00:00") (Raise e)
    "Quantum Computing" s
  = (Return [],
     (fst s,
      mkWorld [(ERROR, "Error generating similar articles: timestamp out of range for platform time_t")]
              [])).
Proof.
  intros s e.
  destruct (demo_operations_never_raise (fun _ => "2024-01-01T00:00:00")
              (Raise e) e 0 "Quantum Computing" s)
    as (_ & _ & Hr & Hg & _ & _).
  split; [exact Hr | exact Hg].
Defined.

(* ====================================================================== *)
(** ** Orchestrator state across calls, and the statistics *)
(* ====================================================================== *)

Module Frame.

Lemma process_direct_input_self
    (isoformat : Z -> string) (now : Z) (title topic_ content_ : string) (s : St) :
  fst (snd (process_direct_input isoformat now title topic_ content_ s)) = fst s.
Proof.
  destruct s as [self w]. destruct (model self) as [m|] eqn:Hm.
  - unfold process_direct_input, try_except.
    rewrite (Chronicler.process_direct_input_body_model _ _ _ _ _ _ _ m Hm).
    cbn zeta.
    destruct (invoke m (direct_input_prompt title topic_ content_)); reflexivity.
  - rewrite Chronicler.process_direct_input_no_model by exact Hm. reflexivity.
Qed.

Lemma get_stats_state (total_seconds : Z -> float) (now : Z) (s : St) :
  snd (get_stats total_seconds now s) = s.
Proof.
  unfold get_stats, bind, get, lift, ret.
  destruct (int_truediv_float _ _); reflexivity.
Qed.

Lemma config_rotate_self (s : St) :
  exists c : ChroniclerConfig,
    fst (snd (config_rotate_groq_token s)) = set_config c (fst s).
Proof.
  destruct s as [self w]. unfold config_rotate_groq_token.
  destruct (rotate_groq_token (config self, w)) as [r [c w']].
  exists c. reflexivity.
Qed.

(** A call moves neither counter, except [run_cycle], which adds the
    length of its list to [articles_generated]. *)
Lemma exec_counters
    (isoformat : Z -> string) (total_seconds : Z -> float) (c : Call) (s : St) :
  articles_researched (fst (exec isoformat total_seconds c s))
  = articles_researched (fst s) /\
  articles_generated (fst (exec isoformat total_seconds c s))
  = articles_generated (fst s) + generated_by isoformat c.
Proof.
  destruct c; cbn [exec generated_by].
  - destruct s as [self w]. rewrite Chronicler.run_cycle_eq. split; reflexivity.
  - rewrite process_direct_input_self. split; [reflexivity | lia].
  - rewrite Chronicler.generate_similar_articles_eq. split; [reflexivity | cbn; lia].
  - rewrite get_stats_state. split; [reflexivity | lia].
  - destruct (config_rotate_self s) as [c ->]. cbn. split; [reflexivity | lia].
Qed.

Lemma exec_all_counters
    (isoformat : Z -> string) (total_seconds : Z -> float) (cs : list Call) :
  forall s : St,
    articles_researched (fst (exec_all isoformat total_seconds cs s))
    = articles_researched (fst s) /\
    articles_generated (fst s)
    <= articles_generated (fst (exec_all isoformat total_seconds cs s))
    <= articles_generated (fst s) + len cs.
Proof.
  induction cs as [|c cs IH]; intros s.
  - cbn. unfold len. cbn. lia.
  - unfold exec_all in *. cbn [fold_left].
    destruct (IH (exec isoformat total_seconds c s)) as [Hr Hg].
    destruct (exec_counters isoformat total_seconds c s) as [Hr1 Hg1].
    rewrite Hr, Hr1. split; [reflexivity|].
    rewrite Hg1 in Hg. unfold len in *. cbn [List.length].
    assert (0 <= generated_by isoformat c <= 1) by (destruct c; cbn; lia).
    lia.
Qed.

(** What [__init__] assigns: everything but [model] and the log is fixed
    by the environment and the clock. *)
Lemma init_state
    (environ : string -> option string)
    (new_ChatGroq : string -> string -> Outcome ChatGroq) (now : Z) (w : World) :
  exists (m : option ChatGroq) (w' : World),
    DigitalChronicler_init environ new_ChatGroq now w =
      (Return tt,
       ({| config := ChroniclerConfig_default environ;
           articles_generated := 0;
           articles_researched := 0;
           start_time := now;
           generated_articles := [];
           researched_stories := [];
           model := m |}, w')).
Proof.
  unfold DigitalChronicler_init, ChroniclerConfig_default.
  destruct (environ "GROQ_API_KEY") as [[|ch key]|];
    try (do 2 eexists; reflexivity).
  unfold bind, lift, try_except, modify, logger_info, logger_error, ret.
  cbn -[append].
  destruct (new_ChatGroq _ _); do 2 eexists; reflexivity.
Qed.

End Frame.

Module FloatGuard.

(** The divisor of [get_stats] is never a zero, whatever float the elapsed
    hours are (negative, infinite and NaN included). *)
Lemma py_max_floor_nonzero (x : float) :
  (py_max x 0.01 =? 0)%float = false.
Proof.
  unfold py_max. destruct (x <? 0.01)%float eqn:E; [reflexivity|].
  rewrite eqb_spec. rewrite ltb_spec in E.
  set (c := Prim2SF 0.01) in *. vm_compute in c. subst c.
  set (z := Prim2SF 0) in *. vm_compute in z. subst z.
  destruct (Prim2SF x) as [sx|sx| |sx mx ex]; try reflexivity.
  - destruct sx; discriminate E.
  - destruct sx; reflexivity.
  - destruct sx; reflexivity.
Qed.

Lemma py_max_floor_small (x : float) :
  (x <? 0.01)%float = true -> py_max x 0.01 = 0.01%float.
Proof. intros H. unfold py_max. rewrite H. reflexivity. Qed.

Lemma digits2_pos_iter_xO (p k : positive) :
  digits2_pos (Pos.iter xO p k) = (digits2_pos p + k)%positive.
Proof.
  induction k as [|k IH] using Pos.peano_ind.
  - cbn. lia.
  - rewrite Pos.iter_succ. cbn [digits2_pos]. rewrite IH. lia.
Qed.

Lemma digits2_pos_bound (p : positive) :
  forall k : Z, Zpos p < 2 ^ k -> Zpos (digits2_pos p) <= k.
Proof.
  assert (K : forall k q, Zpos q < 2 ^ k -> 0 < k)
    by (intros k q H; destruct k; try lia; cbn in H; lia).
  induction p as [p IH|p IH|]; intros k H; pose proof (K _ _ H) as Hk.
  - replace k with (Z.succ (k - 1)) in H by lia.
    rewrite Z.pow_succ_r in H by lia.
    cbn [digits2_pos]. specialize (IH (k - 1)). lia.
  - replace k with (Z.succ (k - 1)) in H by lia.
    rewrite Z.pow_succ_r in H by lia.
    cbn [digits2_pos]. specialize (IH (k - 1)). lia.
  - cbn. lia.
Qed.

(** A mantissa of exactly 53 digits with an exponent in range is kept as
    it is by the rounding. *)
Lemma binary_round_aux_exact (sx : bool) (m : positive) (e : Z) :
  digits2_pos m = 53%positive -> -1074 <= e <= 971 ->
  binary_round_aux prec emax sx (Zpos m) e loc_Exact = S754_finite sx m e.
Proof.
  intros Hd He.
  assert (F : fexp prec emax (Zpos (digits2_pos m) + e) - e = 0).
  { unfold fexp, emin, prec, emax. rewrite Hd. lia. }
  unfold binary_round_aux, shr_fexp.
  cbn [Zdigits2 shr_record_of_loc]. rewrite F.
  cbn [shr shr_m loc_of_shr_record round_nearest_even].
  cbn [Zdigits2 shr_record_of_loc]. rewrite F. cbn [shr shr_m].
  replace (e <=? emax - prec) with true; [reflexivity|].
  symmetry. apply Z.leb_le. unfold emax, prec. lia.
Qed.

(** Integers below 2^53 in magnitude round to a finite double. *)
Lemma binary_round_small (sx : bool) (p : positive) :
  Zpos p < 2 ^ 53 ->
  exists m e, binary_round prec emax sx p 0 = S754_finite sx m e /\
              SpecFloat.valid_binary prec emax (S754_finite sx m e) = true.
Proof.
  intros H. pose proof (digits2_pos_bound p 53 H) as Hd.
  set (d := digits2_pos p) in *.
  assert (F : fexp prec emax (Zpos d + 0) = Zpos d - 53).
  { unfold fexp, emin, prec, emax. lia. }
  unfold binary_round. fold d. rewrite F. unfold shl_align.
  assert (V : forall m e, digits2_pos m = 53%positive -> -1074 <= e <= 971 ->
                SpecFloat.valid_binary prec emax (S754_finite sx m e) = true).
  { intros m e Hm He. unfold SpecFloat.valid_binary, bounded, canonical_mantissa.
    rewrite Hm. apply andb_true_iff. split.
    - apply Z.eqb_eq. unfold fexp, emin, prec, emax. lia.
    - apply Z.leb_le. unfold prec, emax. lia. }
  destruct (Zpos d - 53 - 0) as [|q|q] eqn:E; try lia.
  - assert (Hd53 : d = 53%positive) by lia.
    exists p, 0. rewrite binary_round_aux_exact by (fold d; try lia; exact Hd53).
    split; [reflexivity | apply V; [exact Hd53 | lia]].
  - assert (Hm : digits2_pos (Pos.iter xO p q) = 53%positive).
    { rewrite digits2_pos_iter_xO. fold d. lia. }
    exists (Pos.iter xO p q), (Zpos d - 53).
    rewrite binary_round_aux_exact by (try exact Hm; lia).
    split; [reflexivity | apply V; [exact Hm | lia]].
Qed.

Lemma SF2Prim_finite_not_infinity (sx : bool) (m : positive) (e : Z) :
  SpecFloat.valid_binary prec emax (S754_finite sx m e) = true ->
  is_infinity (SF2Prim (S754_finite sx m e)) = false.
Proof.
  intros V. unfold is_infinity.
  rewrite eqb_spec, abs_spec, Prim2SF_SF2Prim by exact V.
  reflexivity.
Qed.

(** [float(n)] does not overflow for [-2^53 < n < 2^53]. *)
Lemma float_of_int_small (n : Z) :
  - 2 ^ 53 < n < 2 ^ 53 -> exists g, float_of_int n = Return g.
Proof.
  intros H. unfold float_of_int, binary_normalize.
  destruct n as [|p|p].
  - eexists. reflexivity.
  - destruct (binary_round_small false p ltac:(lia)) as (m & e & -> & V).
    rewrite SF2Prim_finite_not_infinity by exact V. eexists. reflexivity.
  - destruct (binary_round_small true p ltac:(lia)) as (m & e & -> & V).
    rewrite SF2Prim_finite_not_infinity by exact V. eexists. reflexivity.
Qed.

Lemma get_stats_eq (total_seconds : Z -> float) (now : Z)
    (self : DigitalChronicler) (w : World) :
  fst (get_stats total_seconds now (self, w)) =
    match float_of_int (articles_generated self) with
    | Return g =>
        Return
          {| stats_articles_generated := articles_generated self;
             stats_articles_researched := articles_researched self;
             stats_articles_per_hour :=
               (g / py_max (runtime_hours total_seconds now self) 0.01)%float;
             stats_run_time_hours := runtime_hours total_seconds now self;
             stats_memory_stories := 0;
             stats_memory_urls := 0;
             stats_memory_titles := 0;
             stats_topic_trends :=
               [("technology", 5); ("science", 3); ("politics", 2)] |}
    | Raise e => Raise e
    end.
Proof.
  unfold get_stats, bind, get, lift, ret, int_truediv_float, float_truediv.
  cbn [fst].
  destruct (float_of_int (articles_generated self)); [|reflexivity].
  rewrite py_max_floor_nonzero. reflexivity.
Qed.

End FloatGuard.

(** C5: on every orchestrator state and at every clock reading, [get_stats]
    divides [articles_generated] by [max(runtime_hours, 0.01)]: the divisor
    is 0.01 whenever the elapsed hours are below it and is never zero, so the
    division never raises [ZeroDivisionError]; the method returns as soon as
    the counter converts to a float, which it does whenever it is below 2^53
    in magnitude.  Right after construction,
    read while the elapsed hours are below 0.01 and in particular at the very
    instant of [start_time], the throughput is the finite float 0. *)
Theorem get_stats_division_guarded
    (total_seconds : Z -> float) (now : Z) (self : DigitalChronicler) (w : World) :
  let h := runtime_hours total_seconds now self in
  let d := py_max h 0.01 in
  (d =? 0)%float = false /\
  ((h <? 0.01)%float = true -> d = 0.01%float) /\
  ((h <? 0.01)%float = false -> d = h) /\
  (forall msg : string,
     fst (get_stats total_seconds now (self, w)) <> Raise (ZeroDivisionError msg)) /\
  (forall g : float,
     float_of_int (articles_generated self) = Return g ->
     exists st,
       fst (get_stats total_seconds now (self, w)) = Return st /\
       stats_articles_per_hour st = (g / d)%float) /\
  (- 2 ^ 53 < articles_generated self < 2 ^ 53 ->
     exists g st,
       float_of_int (articles_generated self) = Return g /\
       fst (get_stats total_seconds now (self, w)) = Return st /\
       stats_articles_per_hour st = (g / d)%float) /\
  (forall (environ : string -> option string)
          (new_ChatGroq : string -> string -> Outcome ChatGroq)
          (now0 : Z) (w0 : World),
     let s0 := snd (DigitalChronicler_init environ new_ChatGroq now0 w0) in
     (runtime_hours total_seconds now (fst s0) <? 0.01)%float = true ->
     exists st,
       fst (get_stats total_seconds now s0) = Return st /\
       stats_articles_per_hour st = 0%float /\
       is_finite (stats_articles_per_hour st) = true) /\
  (total_seconds 0 = 0%float ->
   forall (environ : string -> option string)
          (new_ChatGroq : string -> string -> Outcome ChatGroq) (w0 : World),
     exists st,
       fst (get_stats total_seconds now
              (snd (DigitalChronicler_init environ new_ChatGroq now w0)))
       = Return st /\
       stats_articles_per_hour st = 0%float /\
       is_finite (stats_articles_per_hour st) = true).
Proof.
  intros h d. subst h d.
  split; [apply FloatGuard.py_max_floor_nonzero|].
  split; [apply FloatGuard.py_max_floor_small|].
  split; [intros H; unfold py_max; rewrite H; reflexivity|].
  split; [|split; [|split; [|split]]].
  - intros msg. rewrite FloatGuard.get_stats_eq.
    unfold float_of_int.
    destruct (is_infinity _); discriminate.
  - intros g Hg. rewrite FloatGuard.get_stats_eq, Hg.
    eexists. split; reflexivity.
  - intros Hr. destruct (FloatGuard.float_of_int_small _ Hr) as [g Hg].
    rewrite FloatGuard.get_stats_eq, Hg.
    do 2 eexists. split; [reflexivity|]. split; reflexivity.
  - intros environ new_ChatGroq now0 w0.
    destruct (Frame.init_state environ new_ChatGroq now0 w0) as (m & w' & ->).
    cbn [snd fst]. intros Hh. rewrite FloatGuard.get_stats_eq.
    cbn [articles_generated]. rewrite (FloatGuard.py_max_floor_small _ Hh).
    eexists. split; [reflexivity|]. split; reflexivity.
  - intros H0 environ new_ChatGroq w0.
    destruct (Frame.init_state environ new_ChatGroq now w0) as (m & w' & ->).
    cbn [snd]. rewrite FloatGuard.get_stats_eq.
    cbn [articles_generated]. unfold runtime_hours. cbn [start_time].
    rewrite Z.sub_diag, H0.
    eexists. split; [reflexivity|]. split; reflexivity.
Qed.

Lemma get_stats_division_guarded_witness :
  let total_seconds :=
    fun us : Z => (SF2Prim (binary_normalize prec emax us 0 false) / 1000000)%float in
  let self := mkChronicler
                (mkConfig [""] 0 "llama-3.3-70b-versatile" "mistral-saba-24b")
                3 0 1000000 [] [] None in
  (exists st,
     fst (get_stats total_seconds 7200000000 (self, mkWorld [] [])) = Return st /\
     stats_articles_per_hour st
     = (3 / py_max (runtime_hours total_seconds 7200000000 self) 0.01)%float) /\
  (exists st,
     fst (get_stats total_seconds 42
            (snd (DigitalChronicler_init (fun _ => None)
                    (fun _ _ => Raise (Exception "no client")) 42 (mkWorld [] []))))
     = Return st /\
     stats_articles_per_hour st = 0%float /\
     is_finite (stats_articles_per_hour st) = true).
Proof.
  intros total_seconds self.
  split.
  - destruct (get_stats_division_guarded total_seconds 7200000000 self (mkWorld [] []))
      as (_ & _ & _ & _ & Hg & _ & _ & _).
    exact (Hg 3%float eq_refl).
  - destruct (get_stats_division_guarded total_seconds 42 self (mkWorld [] []))
      as (_ & _ & _ & _ & _ & _ & _ & H0).
    exact (H0 eq_refl (fun _ => None) (fun _ _ => Raise (Exception "no client"))
              (mkWorld [] [])).
Defined.

(** C10: [process_direct_input] and [generate_similar_articles] hand back
    the orchestrator they were called on, every field of it unchanged
    ([articles_generated], [articles_researched], [generated_articles],
    [researched_stories], [start_time], [model], [config]).  Whatever calls
    follow the construction, [articles_researched] is still 0, and
    [get_stats] reports 0 for it: it returns after any sequence of fewer
    than 2^53 calls, and past that it can only fail by [OverflowError] on a
    counter too large for a float. *)
Theorem generation_frame_researched_zero
    (isoformat : Z -> string) (total_seconds : Z -> float) :
  (forall (now : Z) (title topic_ content_ : string) (s : St),
     fst (snd (process_direct_input isoformat now title topic_ content_ s)) = fst s) /\
  (forall (now : Z) (article_name : string) (s : St),
     fst (snd (generate_similar_articles isoformat now article_name s)) = fst s) /\
  (forall (environ : string -> option string)
          (new_ChatGroq : string -> string -> Outcome ChatGroq)
          (now0 : Z) (w0 : World) (cs : list Call) (now : Z),
     let s := exec_all isoformat total_seconds cs
                (snd (DigitalChronicler_init environ new_ChatGroq now0 w0)) in
     articles_researched (fst s) = 0 /\
     ((exists st, fst (get_stats total_seconds now s) = Return st /\
                  stats_articles_researched st = 0) \/
      (exists msg, fst (get_stats total_seconds now s) = Raise (OverflowError msg))) /\
     (len cs < 2 ^ 53 ->
      exists st, fst (get_stats total_seconds now s) = Return st /\
                 stats_articles_researched st = 0)).
Proof.
  split; [|split].
  - intros. apply Frame.process_direct_input_self.
  - intros. rewrite Chronicler.generate_similar_articles_eq. reflexivity.
  - intros environ new_ChatGroq now0 w0 cs now s.
    destruct (Frame.exec_all_counters isoformat total_seconds cs
                (snd (DigitalChronicler_init environ new_ChatGroq now0 w0)))
      as [Hr Hg].
    fold s in Hr, Hg.
    destruct (Frame.init_state environ new_ChatGroq now0 w0) as (m & w' & E).
    rewrite E in Hr, Hg. cbn [fst snd articles_researched articles_generated] in Hr, Hg.
    clearbody s. destruct s as [self w]. cbn [fst] in *.
    split; [exact Hr|]. rewrite FloatGuard.get_stats_eq. split.
    + unfold float_of_int. destruct (is_infinity _).
      * right. eexists. reflexivity.
      * left. eexists. split; [reflexivity | exact Hr].
    + intros Hl.
      destruct (FloatGuard.float_of_int_small (articles_generated self)) as [g ->];
        [unfold len in *; lia|].
      eexists. split; [reflexivity | exact Hr].
Qed.

Lemma generation_frame_researched_zero_witness :
  let isoformat := fun _ : Z => "2024-01-01T00:00:00" in
  let total_seconds :=
    fun us : Z => (SF2Prim (binary_normalize prec emax us 0 false) / 1000000)%float in
  let cs := [Call_run_cycle 10; Call_process_direct_input 20 "T" "general" "C";
             Call_generate_similar_articles 30 "Quantum Computing";
             Call_rotate_groq_token; Call_run_cycle 40] in
  exists st,
    fst (get_stats total_seconds 3600000000
           (exec_all isoformat total_seconds cs
              (snd (DigitalChronicler_init (fun _ => None)
                      (fun _ _ => Raise (Exception "no client")) 0 (mkWorld [] [])))))
    = Return st /\
    stats_articles_researched st = 0.
Proof.
  intros isoformat total_seconds cs.
  destruct (generation_frame_researched_zero isoformat total_seconds) as (_ & _ & H).
  destruct (H (fun _ => None) (fun _ _ => Raise (Exception "no client")) 0
              (mkWorld [] []) cs 3600000000) as (_ & _ & Hs).
  apply Hs. unfold len. simpl. lia.
Defined.

(* ====================================================================== *)
(** ** More on credential rotation *)
(* ====================================================================== *)

Module Rotation.

Lemma getitem_in_range {A : Type} (l : list A) (j : Z) :
  0 <= j < len l ->
  exists x, getitem l j = Return x /\ nth_error l (Z.to_nat j) = Some x.
Proof.
  intros H. unfold getitem.
  replace (j <? 0) with false by (symmetry; apply Z.ltb_ge; lia).
  cbv beta iota zeta.
  replace (j <? 0) with false by (symmetry; apply Z.ltb_ge; lia).
  replace (len l <=? j) with false by (symmetry; apply Z.leb_gt; lia).
  cbn [orb].
  destruct (nth_error l (Z.to_nat j)) as [x|] eqn:E.
  - exists x. split; reflexivity.
  - apply nth_error_None in E. unfold len in H. lia.
Qed.

Lemma getitem_out_of_range {A : Type} (l : list A) (i : Z) :
  i < - len l \/ len l <= i ->
  getitem l i = Raise (IndexError (index_error_message i)).
Proof.
  intros H. unfold getitem.
  assert (0 <= len l) by (unfold len; lia).
  destruct (Z.ltb_spec i 0) as [Hi|Hi]; cbv beta iota zeta.
  - replace (i + len l <? 0) with true by (symmetry; apply Z.ltb_lt; lia).
    reflexivity.
  - replace (i <? 0) with false by (symmetry; apply Z.ltb_ge; lia).
    replace (len l <=? i) with true by (symmetry; apply Z.leb_le; lia).
    reflexivity.
Qed.

Lemma getitem_from_end {A : Type} (l : list A) (i : Z) :
  - len l <= i < 0 -> getitem l i = getitem l (i + len l).
Proof.
  intros H.
  destruct (Config.getitem_inside l i) as (x & -> & Hx); [lia|].
  destruct (Config.getitem_inside l (i + len l)) as (y & -> & Hy); [lia|].
  replace ((i + len l) mod len l) with (i mod len l) in Hy
    by (rewrite <- (Z_mod_plus_full i 1 (len l)); f_equal; lia).
  rewrite Hx in Hy. injection Hy as <-. reflexivity.
Qed.

(** With more than one credential a rotation is this, from any index. *)
Lemma rotate_eq (c : ChroniclerConfig) (w : World) :
  1 < len (groq_api_tokens c) ->
  rotate_groq_token (c, w) =
    (getitem (groq_api_tokens c)
       ((current_token_index c + 1) mod len (groq_api_tokens c)),
     (set_current_token_index
        ((current_token_index c + 1) mod len (groq_api_tokens c)) c,
      logger_on_world INFO
        ("Rotated to Groq token index "
         ++ str_int ((current_token_index c + 1) mod len (groq_api_tokens c))) w)).
Proof.
  intros H. pose proof H as Hb. apply Z.ltb_lt in Hb.
  unfold rotate_groq_token, bind, get, modify, lift, ret. cbn [fst snd].
  rewrite Hb. cbn [fst snd].
  unfold get_current_groq_token, set_current_token_index.
  cbn [groq_api_tokens current_token_index].
  destruct (groq_api_tokens c) as [|t ts]; [unfold len in H; cbn in H; lia|].
  reflexivity.
Qed.

(** The [k]-th of [n] successive rotations returns the credential [k + 1]
    places after the starting index, cyclically. *)
Lemma rotate_outputs_nth (n : nat) :
  forall (k : nat) (c : ChroniclerConfig) (w : World),
    1 < len (groq_api_tokens c) -> (k < n)%nat ->
    nth_error (rotate_outputs n (c, w)) k =
      Some (getitem (groq_api_tokens c)
              ((current_token_index c + 1 + Z.of_nat k) mod len (groq_api_tokens c))).
Proof.
  induction n as [|n IH]; intros k c w H Hk; [lia|].
  cbn [rotate_outputs]. rewrite (rotate_eq c w H). cbn [fst snd].
  destruct k as [|k]; cbn [nth_error].
  - rewrite Z.add_0_r. reflexivity.
  - rewrite IH by (cbn; first [exact H | lia]).
    cbn [groq_api_tokens current_token_index set_current_token_index].
    set (i := current_token_index c). set (N := len (groq_api_tokens c)).
    replace (((i + 1) mod N + 1 + Z.of_nat k) mod N)
      with ((i + 1 + Z.of_nat (S k)) mod N); [reflexivity|].
    replace ((i + 1) mod N + 1 + Z.of_nat k)
      with ((i + 1) mod N + (1 + Z.of_nat k)) by lia.
    rewrite Zplus_mod_idemp_l. f_equal. lia.
Qed.

Lemma rotate_outputs_length (n : nat) :
  forall s, List.length (rotate_outputs n s) = n.
Proof. induction n as [|n IH]; intros s; cbn; [reflexivity | now rewrite IH]. Qed.

End Rotation.

(** X1: with two or more credentials [rotate_groq_token] never raises,
    whatever the index was, a position of the list or not: it returns the
    credential at position (index + 1) mod N, leaves the index at that
    position, which is one of the list, keeps the list and logs one line. *)
Theorem rotate_with_several_tokens_returns (c : ChroniclerConfig) (w : World) :
  2 <= len (groq_api_tokens c) ->
  let j := (current_token_index c + 1) mod len (groq_api_tokens c) in
  exists t : string,
    rotate_groq_token (c, w) =
      (Return t,
       (set_current_token_index j c,
        logger_on_world INFO ("Rotated to Groq token index " ++ str_int j) w)) /\
    nth_error (groq_api_tokens c) (Z.to_nat j) = Some t /\
    0 <= j < len (groq_api_tokens c).
Proof.
  intros H j.
  assert (Hj : 0 <= j < len (groq_api_tokens c)) by (apply Z.mod_pos_bound; lia).
  destruct (Rotation.getitem_in_range (groq_api_tokens c) j Hj) as (t & Hg & Hn).
  exists t. rewrite Rotation.rotate_eq by lia. fold j. rewrite Hg.
  split; [reflexivity | split; assumption].
Qed.

Lemma rotate_with_several_tokens_returns_witness :
  rotate_groq_token (Sample.defaults ["k1"; "k2"; "k3"] 7, mkWorld [] [])
  = (Return "k3",
     (Sample.defaults ["k1"; "k2"; "k3"] 2,
      mkWorld [(INFO, "Rotated to Groq token index 2")] [])).
Proof.
  destruct (rotate_with_several_tokens_returns
              (Sample.defaults ["k1"; "k2"; "k3"] 7) (mkWorld [] []))
    as (t & E & Hn & _).
  - unfold len. simpl. lia.
  - rewrite E. injection Hn as <-. reflexivity.
Defined.

(** X2: [get_current_groq_token] raises exactly when the list is not empty
    and the index is outside -N <= index < N, and what it raises is an
    [IndexError]; otherwise it returns the empty string for the empty list
    and a credential of the list for any other. *)
Theorem get_current_groq_token_raises_iff (c : ChroniclerConfig) :
  let n := len (groq_api_tokens c) in
  let i := current_token_index c in
  ((exists e, get_current_groq_token c = Raise e) <->
   (groq_api_tokens c <> [] /\ (i < - n \/ n <= i))) /\
  (forall e, get_current_groq_token c = Raise e ->
     exists msg : string, e = IndexError msg) /\
  (forall t, get_current_groq_token c = Return t ->
     (groq_api_tokens c = [] /\ t = "") \/ In t (groq_api_tokens c)).
Proof.
  intros n i. subst n i. unfold get_current_groq_token.
  destruct (groq_api_tokens c) as [|t0 ts] eqn:E.
  - split; [|split].
    + split; [intros [e He]; discriminate | intros [Hne _]; now elim Hne].
    + intros e He. discriminate.
    + intros t Ht. injection Ht as <-. left. split; reflexivity.
  - assert (Hne : groq_api_tokens c <> []) by (rewrite E; discriminate).
    rewrite <- E. clear E.
    set (l := groq_api_tokens c) in *. set (i := current_token_index c).
    assert (Hl : 0 <= len l) by (unfold len; lia).
    destruct (Z_lt_ge_dec i (- len l)) as [Hlo|Hlo];
      [|destruct (Z_lt_ge_dec i (len l)) as [Hhi|Hhi]].
    + rewrite Rotation.getitem_out_of_range by lia.
      split; [|split].
      * split; [intros _; split; [exact Hne | lia] | intros _; eexists; reflexivity].
      * intros e He. injection He as <-. eexists. reflexivity.
      * intros t Ht. discriminate.
    + assert (Hin : exists x, getitem l i = Return x /\ In x l).
      { destruct (Z_lt_ge_dec i 0) as [Hneg|Hnn].
        - rewrite Rotation.getitem_from_end by lia.
          destruct (Rotation.getitem_in_range l (i + len l)) as (x & -> & Hx); [lia|].
          exists x. split; [reflexivity | eapply nth_error_In; exact Hx].
        - destruct (Rotation.getitem_in_range l i) as (x & -> & Hx); [lia|].
          exists x. split; [reflexivity | eapply nth_error_In; exact Hx]. }
      destruct Hin as (x & -> & Hx).
      split; [|split].
      * split; [intros [e He]; discriminate | intros [_ Hb]; lia].
      * intros e He. discriminate.
      * intros t Ht. injection Ht as <-. right. exact Hx.
    + rewrite Rotation.getitem_out_of_range by lia.
      split; [|split].
      * split; [intros _; split; [exact Hne | lia] | intros _; eexists; reflexivity].
      * intros e He. injection He as <-. eexists. reflexivity.
      * intros t Ht. discriminate.
Qed.

Lemma get_current_groq_token_raises_iff_witness :
  (exists e, get_current_groq_token (Sample.defaults ["k1"; "k2"] 2) = Raise e) /\
  (exists msg : string,
     IndexError "list index out of range" = IndexError msg) /\
  In "k2" (groq_api_tokens (Sample.defaults ["k1"; "k2"] (-1))).
Proof.
  destruct (get_current_groq_token_raises_iff (Sample.defaults ["k1"; "k2"] 2))
    as ([_ Hr] & He & _).
  destruct (get_current_groq_token_raises_iff (Sample.defaults ["k1"; "k2"] (-1)))
    as (_ & _ & Ht).
  split; [|split].
  - apply Hr. split; [discriminate | right; unfold len; simpl; lia].
  - exact (He (IndexError "list index out of range") eq_refl).
  - destruct (Ht "k2" eq_refl) as [[E _]|Hin]; [discriminate E | exact Hin].
Defined.

(** X3: with two or more credentials, the N values N successive rotations
    return are credentials of the list, the one at position
    (index + 1 + k) mod N for the k-th call, and every position of the list
    is returned by one of these N calls: a full cycle uses every
    credential. *)
Theorem rotate_cycle_visits_every_token (c : ChroniclerConfig) (w : World) :
  2 <= len (groq_api_tokens c) ->
  let N := List.length (groq_api_tokens c) in
  let outputs := rotate_outputs N (c, w) in
  List.length outputs = N /\
  (forall k : nat, (k < N)%nat ->
     exists t,
       nth_error outputs k = Some (Return t) /\
       nth_error (groq_api_tokens c)
         (Z.to_nat ((current_token_index c + 1 + Z.of_nat k) mod Z.of_nat N))
       = Some t) /\
  (forall (p : nat) (t : string),
     nth_error (groq_api_tokens c) p = Some t ->
     exists k : nat, (k < N)%nat /\ nth_error outputs k = Some (Return t)).
Proof.
  intros H N outputs. subst outputs.
  assert (HN : len (groq_api_tokens c) = Z.of_nat N) by reflexivity.
  split; [apply Rotation.rotate_outputs_length|]. split.
  - intros k Hk.
    rewrite Rotation.rotate_outputs_nth by (try exact Hk; lia).
    rewrite HN.
    destruct (Rotation.getitem_in_range (groq_api_tokens c)
                ((current_token_index c + 1 + Z.of_nat k) mod Z.of_nat N))
      as (t & Hg & Hn); [rewrite HN; apply Z.mod_pos_bound; lia|].
    exists t. rewrite Hg. split; [reflexivity | exact Hn].
  - intros p t Hp.
    assert (HpN : (p < N)%nat) by (apply nth_error_Some; rewrite Hp; discriminate).
    set (i := current_token_index c).
    set (k := Z.to_nat ((Z.of_nat p - i - 1) mod Z.of_nat N)).
    assert (Hkb : 0 <= (Z.of_nat p - i - 1) mod Z.of_nat N < Z.of_nat N)
      by (apply Z.mod_pos_bound; lia).
    exists k. split; [subst k; lia|].
    rewrite Rotation.rotate_outputs_nth by (subst k; lia).
    rewrite HN. fold i.
    replace ((i + 1 + Z.of_nat k) mod Z.of_nat N) with (Z.of_nat p).
    + destruct (Rotation.getitem_in_range (groq_api_tokens c) (Z.of_nat p))
        as (x & Hg & Hn); [lia|].
      rewrite Nat2Z.id, Hp in Hn. injection Hn as <-. rewrite Hg. reflexivity.
    + subst k. rewrite Z2Nat.id by lia.
      rewrite Zplus_mod_idemp_r.
      replace (i + 1 + (Z.of_nat p - i - 1)) with (Z.of_nat p) by lia.
      rewrite Z.mod_small by lia. reflexivity.
Qed.

Lemma rotate_cycle_visits_every_token_witness :
  rotate_outputs 3 (Sample.defaults ["k1"; "k2"; "k3"] 1, mkWorld [] [])
  = [Return "k3"; Return "k1"; Return "k2"] /\
  exists k : nat,
    (k < 3)%nat /\
    nth_error (rotate_outputs 3 (Sample.defaults ["k1"; "k2"; "k3"] 1, mkWorld [] [])) k
    = Some (Return "k1").
Proof.
  split; [reflexivity|].
  destruct (rotate_cycle_visits_every_token
              (Sample.defaults ["k1"; "k2"; "k3"] 1) (mkWorld [] []))
    as (_ & _ & Hv).
  - unfold len. simpl. lia.
  - exact (Hv 0%nat "k1" eq_refl).
Defined.

(** X4: with two or more credentials, once one rotation has been made the
    configuration repeats every N rotations, from any starting index. *)
Theorem rotate_times_periodic (c : ChroniclerConfig) (w : World) (k : nat) :
  2 <= len (groq_api_tokens c) ->
  fst (rotate_times (S k + List.length (groq_api_tokens c)) (c, w))
  = fst (rotate_times (S k) (c, w)).
Proof.
  intros H.
  change (S k + List.length (groq_api_tokens c))%nat
    with (S (k + List.length (groq_api_tokens c))).
  rewrite !Config.rotate_times_index by lia.
  f_equal. unfold len.
  replace (Z.of_nat (S (k + List.length (groq_api_tokens c))))
    with (Z.of_nat (S k) + 1 * Z.of_nat (List.length (groq_api_tokens c))) by lia.
  rewrite Z.add_assoc. apply Z_mod_plus_full.
Qed.

Lemma rotate_times_periodic_witness :
  fst (rotate_times 5 (Sample.defaults ["k1"; "k2"; "k3"] 9, mkWorld [] []))
  = fst (rotate_times 2 (Sample.defaults ["k1"; "k2"; "k3"] 9, mkWorld [] [])).
Proof.
  apply (rotate_times_periodic (Sample.defaults ["k1"; "k2"; "k3"] 9) (mkWorld [] []) 1).
  unfold len. simpl. lia.
Defined.

(* ====================================================================== *)
(** ** Construction *)
(* ====================================================================== *)

(** X5: [__init__] never raises, and the orchestrator it builds has a model
    exactly when [GROQ_API_KEY] is set to a non-empty string and the client
    constructor, called with that key and the primary model's name,
    returned the client. *)
Theorem init_model_configured_iff
    (environ : string -> option string)
    (new_ChatGroq : string -> string -> Outcome ChatGroq) (now : Z) (w : World) :
  fst (DigitalChronicler_init environ new_ChatGroq now w) = Return tt /\
  forall m : ChatGroq,
    model (fst (snd (DigitalChronicler_init environ new_ChatGroq now w))) = Some m <->
    exists key : string,
      environ "GROQ_API_KEY" = Some key /\ key <> "" /\
      new_ChatGroq key "llama-3.3-70b-versatile" = Return m.
Proof.
  unfold DigitalChronicler_init, ChroniclerConfig_default.
  destruct (environ "GROQ_API_KEY") as [[|ch key]|] eqn:E.
  - split; [reflexivity|]. intros m. cbn. split; [discriminate|].
    intros (k & Hk & Hne & _). injection Hk as <-. now elim Hne.
  - unfold bind, lift, try_except, modify, logger_info, logger_error, ret.
    cbn -[append].
    destruct (new_ChatGroq (String ch key) "llama-3.3-70b-versatile") as [m0|e] eqn:En;
      (split; [reflexivity|]); intros m; cbn; split.
    + intros Hm. injection Hm as <-. exists (String ch key).
      split; [reflexivity | split; [discriminate | exact En]].
    + intros (k & Hk & _ & Hn). injection Hk as <-. rewrite En in Hn.
      injection Hn as <-. reflexivity.
    + discriminate.
    + intros (k & Hk & _ & Hn). injection Hk as <-. rewrite En in Hn. discriminate.
  - split; [reflexivity|]. intros m. cbn. split; [discriminate|].
    intros (k & Hk & _). discriminate.
Qed.

(** X6: when the client constructor raises, [__init__] still returns: the
    model stays [None], the counters are 0, and the log receives the error
    line with the exception's message, then the line that ends every
    construction. *)
Theorem init_client_failure_is_logged
    (environ : string -> option string)
    (new_ChatGroq : string -> string -> Outcome ChatGroq) (now : Z) (w : World)
    (key : string) (e : Exn) :
  environ "GROQ_API_KEY" = Some key ->
  key <> "" ->
  new_ChatGroq key "llama-3.3-70b-versatile" = Raise e ->
  DigitalChronicler_init environ new_ChatGroq now w =
    (Return tt,
     ({| config := ChroniclerConfig_default environ;
         articles_generated := 0;
         articles_researched := 0;
         start_time := now;
         generated_articles := [];
         researched_stories := [];
         model := None |},
      {| log := (log w ++ [(ERROR, "Error setting up AI model: " ++ str_exn e)])
                ++ [(INFO, "Digital Chronicler initialized")];
         invocations := invocations w |})).
Proof.
  intros Hk Hne Hn.
  unfold DigitalChronicler_init, ChroniclerConfig_default. rewrite Hk.
  destruct key as [|ch key]; [now elim Hne|].
  unfold bind, lift, try_except, modify, logger_info, logger_error, ret.
  cbn -[append]. rewrite Hn. reflexivity.
Qed.

Lemma init_client_failure_is_logged_witness :
  log (snd Sample.refused)
  = [(ERROR, "Error setting up AI model: invalid api key");
     (INFO, "Digital Chronicler initialized")].
Proof.
  unfold Sample.refused.
  rewrite (init_client_failure_is_logged
             (fun _ => Some "gsk_key")
             (fun _ _ => Raise (Exception "invalid api key")) 0 (mkWorld [] [])
             "gsk_key" (Exception "invalid api key") eq_refl
             ltac:(discriminate) eq_refl).
  reflexivity.
Defined.

Lemma init_model_configured_iff_witness :
  let m := mkChatGroq "gsk_key" "llama-3.3-70b-versatile"
             (fun _ => Return (mkAIMessage "text")) in
  model (fst (snd (DigitalChronicler_init (fun _ => Some "gsk_key")
                     (fun k n => Return (mkChatGroq k n
                                           (fun _ => Return (mkAIMessage "text"))))
                     0 (mkWorld [] []))))
  = Some m.
Proof.
  intros m.
  apply (init_model_configured_iff (fun _ => Some "gsk_key")
           (fun k n => Return (mkChatGroq k n (fun _ => Return (mkAIMessage "text"))))
           0 (mkWorld [] [])).
  exists "gsk_key". split; [reflexivity | split; [discriminate | reflexivity]].
Defined.

(* ====================================================================== *)
(** ** More on direct input *)
(* ====================================================================== *)

Module Direct.

Lemma prompt_contains_title (title topic_ content_ : string) :
  contains title (direct_input_prompt title topic_ content_) = true.
Proof.
  apply Str.contains_spec. unfold direct_input_prompt.
  exists ("Transform this user input into a well-structured article:" ++ nl ++ nl
          ++ "Title: ").
  eexists. rewrite !Str.append_assoc. reflexivity.
Qed.

Lemma prompt_contains_topic (title topic_ content_ : string) :
  contains topic_ (direct_input_prompt title topic_ content_) = true.
Proof.
  apply Str.contains_spec. unfold direct_input_prompt.
  exists ("Transform this user input into a well-structured article:" ++ nl ++ nl
          ++ "Title: " ++ title ++ nl ++ "Topic: ").
  eexists. rewrite !Str.append_assoc. reflexivity.
Qed.

Lemma prompt_contains_content (title topic_ content_ : string) :
  contains content_ (direct_input_prompt title topic_ content_) = true.
Proof.
  apply Str.contains_spec. unfold direct_input_prompt.
  exists ("Transform this user input into a well-structured article:" ++ nl ++ nl
          ++ "Title: " ++ title ++ nl ++ "Topic: " ++ topic_ ++ nl ++ "Content: ").
  eexists. rewrite !Str.append_assoc. reflexivity.
Qed.

(** The whole of a call with a model configured. *)
Lemma process_direct_input_model
    (isoformat : Z -> string) (now : Z) (title topic_ content_ : string)
    (self : DigitalChronicler) (w : World) (m : ChatGroq) :
  model self = Some m ->
  process_direct_input isoformat now title topic_ content_ (self, w) =
    match invoke m (direct_input_prompt title topic_ content_) with
    | Return response =>
        (Return (Some
           {| generated_title := title;
              generated_content := content response;
              topic := topic_;
              source_name := "Direct Input";
              url := "";
              generation_timestamp := isoformat now;
              image_url := "";
              search_query := None |}),
         (self,
          {| log := log w;
             invocations := invocations w
                            ++ [direct_input_prompt title topic_ content_] |}))
    | Raise e =>
        (Return None,
         (self,
          {| log := log w
                    ++ [(ERROR, "Error processing direct input: " ++ str_exn e)];
             invocations := invocations w
                            ++ [direct_input_prompt title topic_ content_] |}))
    end.
Proof.
  intros Hm. unfold process_direct_input, try_except.
  rewrite (Chronicler.process_direct_input_body_model _ _ _ _ _ _ _ m Hm).
  cbn zeta.
  destruct (invoke m (direct_input_prompt title topic_ content_)); reflexivity.
Qed.

End Direct.

(** X7: [process_direct_input] never raises: it returns a record or [None];
    and it returns [None] exactly when a model is configured and its
    invocation on the prompt raises. *)
Theorem process_direct_input_none_iff
    (isoformat : Z -> string) (now : Z) (title topic_ content_ : string)
    (self : DigitalChronicler) (w : World) :
  let r := fst (process_direct_input isoformat now title topic_ content_ (self, w)) in
  ((exists a, r = Return (Some a)) \/ r = Return None) /\
  (r = Return None <->
   exists (m : ChatGroq) (e : Exn),
     model self = Some m /\
     invoke m (direct_input_prompt title topic_ content_) = Raise e).
Proof.
  intros r. subst r.
  destruct (model self) as [m|] eqn:Hm.
  - rewrite (Direct.process_direct_input_model _ _ _ _ _ _ _ m Hm).
    destruct (invoke m (direct_input_prompt title topic_ content_)) as [resp|e] eqn:Hi;
      cbn [fst]; split.
    + left. eexists. reflexivity.
    + split; [discriminate|].
      intros (m' & e & Hm' & He). injection Hm' as <-. rewrite Hi in He. discriminate.
    + right. reflexivity.
    + split; [|reflexivity]. intros _. exists m, e. split; [reflexivity | exact Hi].
  - rewrite Chronicler.process_direct_input_no_model by exact Hm. cbn [fst]. split.
    + left. eexists. reflexivity.
    + split; [discriminate|]. intros (m & e & Hm' & _). discriminate.
Qed.

Lemma process_direct_input_none_iff_witness :
  let m := mkChatGroq "gsk_key" "llama-3.3-70b-versatile"
             (fun _ => Raise (Exception "rate limit")) in
  fst (process_direct_input Sample.iso 0 "T" "general" "C"
         (set_model (Some m) (fst Sample.fresh), snd Sample.fresh))
  = Return None.
Proof.
  intros m.
  apply (process_direct_input_none_iff Sample.iso 0 "T" "general" "C"
           (set_model (Some m) (fst Sample.fresh)) (snd Sample.fresh)).
  exists m, (Exception "rate limit"). split; reflexivity.
Defined.

(** X8: with a model configured whose invocation returns, the record keeps
    the title as given (no prefix), carries the model's text as content and
    the caller's topic, and the one prompt that was sent contains the title,
    the topic and the content. *)
Theorem process_direct_input_model_answer
    (isoformat : Z -> string) (now : Z) (title topic_ content_ : string)
    (self : DigitalChronicler) (w : World) (m : ChatGroq) (response : AIMessage) :
  model self = Some m ->
  invoke m (direct_input_prompt title topic_ content_) = Return response ->
  let prompt := direct_input_prompt title topic_ content_ in
  process_direct_input isoformat now title topic_ content_ (self, w) =
    (Return (Some
       {| generated_title := title;
          generated_content := content response;
          topic := topic_;
          source_name := "Direct Input";
          url := "";
          generation_timestamp := isoformat now;
          image_url := "";
          search_query := None |}),
     (self, {| log := log w; invocations := invocations w ++ [prompt] |})) /\
  contains title prompt = true /\
  contains topic_ prompt = true /\
  contains content_ prompt = true.
Proof.
  intros Hm Hi prompt. subst prompt.
  rewrite (Direct.process_direct_input_model _ _ _ _ _ _ _ m Hm), Hi.
  split; [reflexivity|].
  split; [apply Direct.prompt_contains_title|].
  split; [apply Direct.prompt_contains_topic | apply Direct.prompt_contains_content].
Qed.

Lemma process_direct_input_model_answer_witness :
  let m := mkChatGroq "gsk_key" "llama-3.3-70b-versatile"
             (fun p => Return (mkAIMessage "A rewritten article.")) in
  exists a,
    fst (process_direct_input Sample.iso 0 "T" "general" "C"
           (set_model (Some m) (fst Sample.fresh), snd Sample.fresh))
    = Return (Some a) /\
    generated_title a = "T" /\ generated_content a = "A rewritten article.".
Proof.
  intros m.
  destruct (process_direct_input_model_answer Sample.iso 0 "T" "general" "C"
              (set_model (Some m) (fst Sample.fresh)) (snd Sample.fresh) m
              (mkAIMessage "A rewritten article.") eq_refl eq_refl) as [E _].
  rewrite E. eexists. split; [reflexivity | split; reflexivity].
Defined.

(** X9: with a model configured, one call sends exactly one prompt, whether
    the invocation returns or raises, and it writes to the log only when the
    invocation raises: then one ERROR line with the exception's message. *)
Theorem process_direct_input_traffic_and_log
    (isoformat : Z -> string) (now : Z) (title topic_ content_ : string)
    (self : DigitalChronicler) (w : World) (m : ChatGroq) :
  model self = Some m ->
  let w' := snd (snd (process_direct_input isoformat now title topic_ content_
                        (self, w))) in
  invocations w'
  = (invocations w ++ [direct_input_prompt title topic_ content_])%list /\
  log w' =
    (log w ++
     match invoke m (direct_input_prompt title topic_ content_) with
     | Return _ => []
     | Raise e =>
         [(ERROR, ("Error processing direct input: " ++ str_exn e)%string)]
     end)%list.
Proof.
  intros Hm w'. subst w'.
  rewrite (Direct.process_direct_input_model _ _ _ _ _ _ _ m Hm).
  destruct (invoke m (direct_input_prompt title topic_ content_)); cbn [snd log invocations].
  - split; [reflexivity | now rewrite app_nil_r].
  - split; reflexivity.
Qed.

Lemma process_direct_input_traffic_and_log_witness :
  let m := mkChatGroq "gsk_key" "llama-3.3-70b-versatile"
             (fun _ => Raise (Exception "rate limit")) in
  let w' := snd (snd (process_direct_input Sample.iso 0 "T" "general" "C"
                        (set_model (Some m) (fst Sample.fresh), mkWorld [] []))) in
  invocations w' = [direct_input_prompt "T" "general" "C"] /\
  log w' = [(ERROR, "Error processing direct input: rate limit")].
Proof.
  intros m w'.
  exact (process_direct_input_traffic_and_log Sample.iso 0 "T" "general" "C"
           (set_model (Some m) (fst Sample.fresh)) (mkWorld [] []) m eq_refl).
Defined.

(* ====================================================================== *)
(** ** What sequences of calls keep and add *)
(* ====================================================================== *)

Module Calls.

Lemma set_config_same (self : DigitalChronicler) : set_config (config self) self = self.
Proof. destruct self; reflexivity. Qed.

(** A rotation moves at most the index of the configuration, and logs at
    most its own line. *)
Lemma rotate_cases (c : ChroniclerConfig) (w : World) :
  (1 < len (groq_api_tokens c) /\
   exists i, snd (rotate_groq_token (c, w)) =
             (set_current_token_index i c,
              logger_on_world INFO ("Rotated to Groq token index " ++ str_int i) w)) \/
  (len (groq_api_tokens c) <= 1 /\ snd (rotate_groq_token (c, w)) = (c, w)).
Proof.
  destruct (Z_lt_ge_dec 1 (len (groq_api_tokens c))) as [H|H].
  - left. split; [exact H|]. eexists. apply Config.rotate_advances. exact H.
  - right. split; [lia|]. rewrite Config.rotate_noop by lia. reflexivity.
Qed.

Lemma config_rotate_cases (self : DigitalChronicler) (w : World) :
  (1 < len (groq_api_tokens (config self)) /\
   exists i, snd (config_rotate_groq_token (self, w)) =
             (set_config (set_current_token_index i (config self)) self,
              logger_on_world INFO ("Rotated to Groq token index " ++ str_int i) w)) \/
  (len (groq_api_tokens (config self)) <= 1 /\
   snd (config_rotate_groq_token (self, w)) = (self, w)).
Proof.
  unfold config_rotate_groq_token.
  destruct (rotate_cases (config self) w) as [[H [i E]]|[H E]];
    destruct (rotate_groq_token (config self, w)) as [r [c w']];
    cbn [snd] in *; injection E as -> ->.
  - left. split; [exact H|]. exists i. reflexivity.
  - right. split; [exact H|]. rewrite set_config_same. reflexivity.
Qed.

Lemma exec_fixed
    (isoformat : Z -> string) (total_seconds : Z -> float) (c : Call) (s : St) :
  fixed_part (fst (exec isoformat total_seconds c s)) = fixed_part (fst s).
Proof.
  destruct c; cbn [exec].
  - destruct s as [self w]. rewrite Chronicler.run_cycle_eq. reflexivity.
  - rewrite Frame.process_direct_input_self. reflexivity.
  - rewrite Chronicler.generate_similar_articles_eq. reflexivity.
  - rewrite Frame.get_stats_state. reflexivity.
  - destruct s as [self w].
    destruct (config_rotate_cases self w) as [[_ [i ->]]|[_ ->]]; reflexivity.
Qed.

Lemma exec_all_fixed
    (isoformat : Z -> string) (total_seconds : Z -> float) (cs : list Call) :
  forall s : St,
    fixed_part (fst (exec_all isoformat total_seconds cs s)) = fixed_part (fst s).
Proof.
  induction cs as [|c cs IH]; intros s; [reflexivity|].
  unfold exec_all in *. cbn [fold_left]. rewrite IH. apply exec_fixed.
Qed.

Lemma fixed_part_model (a b : DigitalChronicler) :
  fixed_part a = fixed_part b -> model a = model b.
Proof. unfold fixed_part. intros H. now injection H. Qed.

Lemma fixed_part_tokens (a b : DigitalChronicler) :
  fixed_part a = fixed_part b ->
  groq_api_tokens (config a) = groq_api_tokens (config b).
Proof. unfold fixed_part. intros H. now injection H. Qed.

(** What one call adds to the log and to the prompts sent. *)
Lemma exec_world
    (isoformat : Z -> string) (total_seconds : Z -> float) (c : Call) (s : St) :
  exists lines : list (Level * string),
    log (snd (exec isoformat total_seconds c s)) = (log (snd s) ++ lines)%list /\
    Forall is_call_log_line lines /\
    invocations (snd (exec isoformat total_seconds c s)) =
      (invocations (snd s)
       ++ match model (fst s) with Some _ => prompt_of_call c | None => [] end)%list.
Proof.
  destruct s as [self w].
  assert (Hnil : forall l : list string,
            l = (l ++ match model self with Some _ => [] | None => [] end)%list)
    by (intros l; destruct (model self); now rewrite app_nil_r).
  destruct c; cbn [exec prompt_of_call fst snd].
  - exists []. rewrite Chronicler.run_cycle_eq. cbn [snd].
    rewrite app_nil_r. split; [reflexivity | split; [constructor | apply Hnil]].
  - destruct (model self) as [m|] eqn:Hm.
    + rewrite (Direct.process_direct_input_model _ _ _ _ _ _ _ m Hm).
      destruct (invoke m (direct_input_prompt title topic_ content_)) as [r|e];
        cbn [snd log invocations].
      * exists []. rewrite app_nil_r.
        split; [reflexivity | split; [constructor | reflexivity]].
      * eexists. split; [reflexivity|]. split; [|reflexivity].
        constructor; [|constructor]. left. exists e. reflexivity.
    + rewrite Chronicler.process_direct_input_no_model by exact Hm. cbn [snd].
      exists []. rewrite !app_nil_r.
      split; [reflexivity | split; [constructor | reflexivity]].
  - exists []. rewrite Chronicler.generate_similar_articles_eq. cbn [snd].
    rewrite app_nil_r. split; [reflexivity | split; [constructor | apply Hnil]].
  - exists []. rewrite Frame.get_stats_state. cbn [snd].
    rewrite app_nil_r. split; [reflexivity | split; [constructor | apply Hnil]].
  - destruct (config_rotate_cases self w) as [[_ [i ->]]|[_ ->]]; cbn [snd].
    + eexists. cbn [logger_on_world log invocations].
      split; [reflexivity|]. split; [|apply Hnil].
      constructor; [|constructor]. right. exists i. reflexivity.
    + exists []. rewrite app_nil_r.
      split; [reflexivity | split; [constructor | apply Hnil]].
Qed.

Lemma exec_all_world
    (isoformat : Z -> string) (total_seconds : Z -> float) (cs : list Call) :
  forall s : St,
    exists lines : list (Level * string),
      log (snd (exec_all isoformat total_seconds cs s)) = (log (snd s) ++ lines)%list /\
      Forall is_call_log_line lines /\
      invocations (snd (exec_all isoformat total_seconds cs s)) =
        (invocations (snd s)
         ++ match model (fst s) with Some _ => prompts_of cs | None => [] end)%list.
Proof.
  induction cs as [|c cs IH]; intros s.
  - exists []. cbn. rewrite app_nil_r.
    split; [reflexivity | split; [constructor|]].
    destruct (model (fst s)); now rewrite app_nil_r.
  - unfold exec_all in *. cbn [fold_left].
    destruct (IH (exec isoformat total_seconds c s)) as (l2 & Hl2 & Hf2 & Hi2).
    destruct (exec_world isoformat total_seconds c s) as (l1 & Hl1 & Hf1 & Hi1).
    exists (l1 ++ l2)%list.
    rewrite Hl2, Hl1, Hi2, Hi1.
    rewrite (fixed_part_model _ _ (exec_fixed isoformat total_seconds c s)).
    split; [now rewrite app_assoc|].
    split; [apply Forall_app; split; assumption|].
    unfold prompts_of. cbn [flat_map].
    destruct (model (fst s)); rewrite <- app_assoc; reflexivity.
Qed.

Lemma count_run_cycle_cons (c : Call) (cs : list Call) :
  count_run_cycle (c :: cs)
  = (if is_run_cycle c then 1 else 0) + count_run_cycle cs.
Proof.
  unfold count_run_cycle, len. cbn [filter].
  destruct (is_run_cycle c); cbn [List.length]; lia.
Qed.

Lemma exec_all_generated
    (isoformat : Z -> string) (total_seconds : Z -> float) (cs : list Call) :
  forall s : St,
    articles_generated (fst (exec_all isoformat total_seconds cs s))
    = articles_generated (fst s) + count_run_cycle cs.
Proof.
  induction cs as [|c cs IH]; intros s.
  - cbn. unfold count_run_cycle, len. cbn. lia.
  - unfold exec_all in *. cbn [fold_left]. rewrite IH.
    destruct (Frame.exec_counters isoformat total_seconds c s) as [_ ->].
    rewrite count_run_cycle_cons.
    assert (E : generated_by isoformat c = if is_run_cycle c then 1 else 0)
      by (destruct c; reflexivity).
    rewrite E. lia.
Qed.

(** With at most one credential no call changes the configuration. *)
Lemma exec_config_single
    (isoformat : Z -> string) (total_seconds : Z -> float) (c : Call) (s : St) :
  len (groq_api_tokens (config (fst s))) <= 1 ->
  config (fst (exec isoformat total_seconds c s)) = config (fst s).
Proof.
  intros H. destruct c; cbn [exec].
  - destruct s as [self w]. rewrite Chronicler.run_cycle_eq. reflexivity.
  - rewrite Frame.process_direct_input_self. reflexivity.
  - rewrite Chronicler.generate_similar_articles_eq. reflexivity.
  - rewrite Frame.get_stats_state. reflexivity.
  - destruct s as [self w]. cbn [fst] in H.
    destruct (config_rotate_cases self w) as [[H1 _]|[_ ->]]; [lia | reflexivity].
Qed.

Lemma exec_all_config_single
    (isoformat : Z -> string) (total_seconds : Z -> float) (cs : list Call) :
  forall s : St,
    len (groq_api_tokens (config (fst s))) <= 1 ->
    config (fst (exec_all isoformat total_seconds cs s)) = config (fst s).
Proof.
  induction cs as [|c cs IH]; intros s H; [reflexivity|].
  unfold exec_all in *. cbn [fold_left].
  pose proof (exec_config_single isoformat total_seconds c s H) as E.
  rewrite IH by (rewrite E; exact H). exact E.
Qed.

End Calls.

Module Quiet.

(** Without a model and with at most one credential a call writes nothing
    and sends nothing. *)
Lemma exec_world_same
    (isoformat : Z -> string) (total_seconds : Z -> float) (c : Call) (s : St) :
  model (fst s) = None ->
  len (groq_api_tokens (config (fst s))) <= 1 ->
  snd (exec isoformat total_seconds c s) = snd s.
Proof.
  intros Hm Ht. destruct s as [self w]. cbn [fst snd] in *.
  destruct c; cbn [exec].
  - rewrite Chronicler.run_cycle_eq. reflexivity.
  - rewrite Chronicler.process_direct_input_no_model by exact Hm. reflexivity.
  - rewrite Chronicler.generate_similar_articles_eq. reflexivity.
  - rewrite Frame.get_stats_state. reflexivity.
  - destruct (Calls.config_rotate_cases self w) as [[H1 _]|[_ ->]]; [lia | reflexivity].
Qed.

Lemma exec_all_world_same
    (isoformat : Z -> string) (total_seconds : Z -> float) (cs : list Call) :
  forall s : St,
    model (fst s) = None ->
    len (groq_api_tokens (config (fst s))) <= 1 ->
    snd (exec_all isoformat total_seconds cs s) = snd s.
Proof.
  induction cs as [|c cs IH]; intros s Hm Ht; [reflexivity|].
  unfold exec_all in *. cbn [fold_left].
  rewrite IH.
  - apply exec_world_same; assumption.
  - rewrite (Calls.fixed_part_model _ _ (Calls.exec_fixed isoformat total_seconds c s)).
    exact Hm.
  - rewrite (Calls.exec_config_single isoformat total_seconds c s Ht). exact Ht.
Qed.

End Quiet.

(** X10: after any sequence of calls, [articles_generated] is its initial
    value plus the number of [run_cycle] calls in the sequence; no other
    call moves it. *)
Theorem exec_all_counts_run_cycles
    (isoformat : Z -> string) (total_seconds : Z -> float)
    (cs : list Call) (s : St) :
  articles_generated (fst (exec_all isoformat total_seconds cs s))
  = articles_generated (fst s) + count_run_cycle cs /\
  0 <= count_run_cycle cs <= len cs.
Proof.
  split; [apply Calls.exec_all_generated|].
  unfold count_run_cycle, len.
  pose proof (filter_length_le is_run_cycle cs). lia.
Qed.

(** X11: no sequence of calls changes the model handle, the start time, the
    lists [generated_articles] and [researched_stories], the researched
    counter, the credential list or the model names: articles are never
    stored, and a model is never added, replaced or dropped after
    construction. *)
Theorem exec_all_keeps_fixed_part
    (isoformat : Z -> string) (total_seconds : Z -> float)
    (cs : list Call) (s : St) :
  let self := fst s in
  let self' := fst (exec_all isoformat total_seconds cs s) in
  model self' = model self /\
  start_time self' = start_time self /\
  generated_articles self' = generated_articles self /\
  researched_stories self' = researched_stories self /\
  articles_researched self' = articles_researched self /\
  groq_api_tokens (config self') = groq_api_tokens (config self) /\
  primary_model (config self') = primary_model (config self) /\
  backup_model (config self') = backup_model (config self).
Proof.
  intros self self'.
  pose proof (Calls.exec_all_fixed isoformat total_seconds cs s) as H.
  fold self self' in H. unfold fixed_part in H.
  injection H as H1 H2 H3 H4 H5 H6 H7 H8.
  repeat split; assumption.
Qed.

Module LogLines.

(** What one call adds to the log: nothing unless it is a
    [process_direct_input] or a rotation, and then at most one line. *)
Lemma exec_log
    (isoformat : Z -> string) (total_seconds : Z -> float) (c : Call) (s : St) :
  exists lines : list (Level * string),
    log (snd (exec isoformat total_seconds c s)) = (log (snd s) ++ lines)%list /\
    Forall is_call_log_line lines /\
    (List.length lines <= if is_logging_call c then 1 else 0)%nat.
Proof.
  destruct s as [self w].
  destruct c; cbn [exec is_logging_call fst snd].
  - exists []. rewrite Chronicler.run_cycle_eq. cbn [snd].
    rewrite app_nil_r. split; [reflexivity | split; [constructor | cbn; lia]].
  - destruct (model self) as [m|] eqn:Hm.
    + rewrite (Direct.process_direct_input_model _ _ _ _ _ _ _ m Hm).
      destruct (invoke m (direct_input_prompt title topic_ content_)) as [r|e];
        cbn [snd log].
      * exists []. rewrite app_nil_r.
        split; [reflexivity | split; [constructor | cbn; lia]].
      * eexists. split; [reflexivity|]. split; [|cbn; lia].
        constructor; [|constructor]. left. exists e. reflexivity.
    + rewrite Chronicler.process_direct_input_no_model by exact Hm. cbn [snd].
      exists []. rewrite app_nil_r.
      split; [reflexivity | split; [constructor | cbn; lia]].
  - exists []. rewrite Chronicler.generate_similar_articles_eq. cbn [snd].
    rewrite app_nil_r. split; [reflexivity | split; [constructor | cbn; lia]].
  - exists []. rewrite Frame.get_stats_state. cbn [snd].
    rewrite app_nil_r. split; [reflexivity | split; [constructor | cbn; lia]].
  - destruct (Calls.config_rotate_cases self w) as [[_ [i ->]]|[_ ->]]; cbn [snd].
    + eexists. cbn [logger_on_world log].
      split; [reflexivity|]. split; [|cbn; lia].
      constructor; [|constructor]. right. exists i. reflexivity.
    + exists []. rewrite app_nil_r.
      split; [reflexivity | split; [constructor | cbn; lia]].
Qed.

Lemma exec_all_log
    (isoformat : Z -> string) (total_seconds : Z -> float) (cs : list Call) :
  forall s : St,
    exists lines : list (Level * string),
      log (snd (exec_all isoformat total_seconds cs s)) = (log (snd s) ++ lines)%list /\
      Forall is_call_log_line lines /\
      (List.length lines <= List.length (filter is_logging_call cs))%nat.
Proof.
  induction cs as [|c cs IH]; intros s.
  - exists []. cbn. rewrite app_nil_r.
    split; [reflexivity | split; [constructor | lia]].
  - unfold exec_all in *. cbn [fold_left].
    destruct (IH (exec isoformat total_seconds c s)) as (l2 & Hl2 & Hf2 & Hn2).
    destruct (exec_log isoformat total_seconds c s) as (l1 & Hl1 & Hf1 & Hn1).
    exists (l1 ++ l2)%list. rewrite Hl2, Hl1.
    split; [now rewrite app_assoc|].
    split; [apply Forall_app; split; assumption|].
    rewrite length_app. cbn [filter].
    destruct (is_logging_call c); cbn [List.length]; lia.
Qed.

Lemma filter_none (cs : list Call) :
  forallb (fun c => negb (is_logging_call c)) cs = true ->
  filter is_logging_call cs = [].
Proof.
  induction cs as [|c cs IH]; cbn [forallb filter]; [reflexivity|].
  intros H. apply andb_true_iff in H. destruct H as [Hc Hcs].
  apply negb_true_iff in Hc. rewrite Hc. apply IH. exact Hcs.
Qed.

End LogLines.

(** X12: [run_cycle], [generate_similar_articles] and [get_stats] log
    nothing, on any state.  Over any sequence of calls the log only grows;
    every line added is either the error line of a failed
    [process_direct_input] or the line of a credential rotation, and there
    are no more of them than calls of these two kinds: a sequence without
    them leaves the log as it was. *)
Theorem exec_all_log_append_only
    (isoformat : Z -> string) (total_seconds : Z -> float)
    (cs : list Call) (s : St) :
  (forall (now : Z) (s0 : St),
     log (snd (snd (run_cycle isoformat now s0))) = log (snd s0)) /\
  (forall (now : Z) (article_name : string) (s0 : St),
     log (snd (snd (generate_similar_articles isoformat now article_name s0)))
     = log (snd s0)) /\
  (forall (now : Z) (s0 : St),
     log (snd (snd (get_stats total_seconds now s0))) = log (snd s0)) /\
  (exists lines : list (Level * string),
     log (snd (exec_all isoformat total_seconds cs s)) = (log (snd s) ++ lines)%list /\
     Forall (fun entry : Level * string =>
               (exists e : Exn,
                  entry = (ERROR, "Error processing direct input: " ++ str_exn e)) \/
               (exists i : Z,
                  entry = (INFO, "Rotated to Groq token index " ++ str_int i)))
            lines /\
     (List.length lines <= List.length (filter is_logging_call cs))%nat) /\
  (forallb (fun c => negb (is_logging_call c)) cs = true ->
   log (snd (exec_all isoformat total_seconds cs s)) = log (snd s)).
Proof.
  split; [|split; [|split; [|split]]].
  - intros now [self w]. rewrite Chronicler.run_cycle_eq. reflexivity.
  - intros now article_name s0.
    rewrite Chronicler.generate_similar_articles_eq. reflexivity.
  - intros now s0. rewrite Frame.get_stats_state. reflexivity.
  - destruct (LogLines.exec_all_log isoformat total_seconds cs s)
      as (lines & Hl & Hf & Hn).
    exists lines. split; [exact Hl | split; [exact Hf | exact Hn]].
  - intros Hq.
    destruct (LogLines.exec_all_log isoformat total_seconds cs s)
      as (lines & Hl & _ & Hn).
    rewrite (LogLines.filter_none cs Hq) in Hn.
    destruct lines as [|x lines]; [|cbn in Hn; lia].
    rewrite app_nil_r in Hl. exact Hl.
Qed.

Lemma exec_all_log_append_only_witness :
  let m := mkChatGroq "gsk_key" "llama-3.3-70b-versatile"
             (fun _ => Raise (Exception "rate limit")) in
  let s := (set_model (Some m) (set_config (Sample.defaults ["k1"; "k2"] 0)
                                  (fst Sample.fresh)),
            mkWorld [(INFO, "earlier line")] []) in
  log (snd (exec_all Sample.iso (fun _ => 0%float)
              [Call_run_cycle 1; Call_generate_similar_articles 2 "Quantum Computing";
               Call_get_stats 3; Call_run_cycle 4] s))
  = [(INFO, "earlier line")].
Proof.
  intros m s.
  apply (exec_all_log_append_only Sample.iso (fun _ => 0%float)
           [Call_run_cycle 1; Call_generate_similar_articles 2 "Quantum Computing";
            Call_get_stats 3; Call_run_cycle 4] s).
  reflexivity.
Defined.

(** X13: the prompts sent to the model over a sequence of calls are, in
    order, exactly the prompts of its [process_direct_input] calls when a
    model is configured, one per call whether it succeeded or not; without
    a model nothing is ever sent. *)
Theorem exec_all_invocations
    (isoformat : Z -> string) (total_seconds : Z -> float)
    (cs : list Call) (s : St) :
  (forall m : ChatGroq,
     model (fst s) = Some m ->
     invocations (snd (exec_all isoformat total_seconds cs s))
     = (invocations (snd s) ++ prompts_of cs)%list) /\
  (model (fst s) = None ->
     invocations (snd (exec_all isoformat total_seconds cs s)) = invocations (snd s)).
Proof.
  destruct (Calls.exec_all_world isoformat total_seconds cs s) as (lines & _ & _ & Hi).
  split.
  - intros m Hm. rewrite Hm in Hi. exact Hi.
  - intros Hm. rewrite Hm, app_nil_r in Hi. exact Hi.
Qed.

Lemma exec_all_invocations_witness :
  let m := mkChatGroq "gsk_key" "llama-3.3-70b-versatile"
             (fun _ => Raise (Exception "rate limit")) in
  let cs := [Call_run_cycle 1; Call_process_direct_input 2 "T" "general" "C";
             Call_generate_similar_articles 3 "Quantum Computing";
             Call_process_direct_input 4 "U" "science" "D"] in
  let ts := fun _ : Z => 0%float in
  invocations (snd (exec_all Sample.iso ts cs
                      (set_model (Some m) (fst Sample.fresh), mkWorld [] [])))
  = [direct_input_prompt "T" "general" "C"; direct_input_prompt "U" "science" "D"] /\
  invocations (snd (exec_all Sample.iso ts cs Sample.fresh)) = [].
Proof.
  intros m cs ts. split.
  - exact (proj1 (exec_all_invocations Sample.iso ts cs
                    (set_model (Some m) (fst Sample.fresh), mkWorld [] []))
             m eq_refl).
  - exact (proj2 (exec_all_invocations Sample.iso ts cs Sample.fresh) eq_refl).
Defined.

(** X14: an orchestrator without a model and with at most one credential is
    silent: whatever is called on it, nothing is logged and nothing is
    sent. *)
Theorem exec_all_silent_without_model
    (isoformat : Z -> string) (total_seconds : Z -> float)
    (cs : list Call) (s : St) :
  model (fst s) = None ->
  len (groq_api_tokens (config (fst s))) <= 1 ->
  snd (exec_all isoformat total_seconds cs s) = snd s.
Proof. apply Quiet.exec_all_world_same. Qed.

Lemma exec_all_silent_without_model_witness :
  snd (exec_all Sample.iso (fun _ => 0%float)
         [Call_rotate_groq_token; Call_process_direct_input 2 "T" "general" "C";
          Call_run_cycle 3; Call_get_stats 4]
         Sample.fresh)
  = snd Sample.fresh.
Proof.
  apply (exec_all_silent_without_model Sample.iso (fun _ => 0%float)
           [Call_rotate_groq_token; Call_process_direct_input 2 "T" "general" "C";
            Call_run_cycle 3; Call_get_stats 4]
           Sample.fresh).
  - reflexivity.
  - unfold len. simpl. lia.
Defined.

(** X15: an orchestrator built by [__init__] holds one credential, the value
    of [GROQ_API_KEY] or the empty string, so after any sequence of calls
    its configuration is still the default one, and [rotate_groq_token]
    changes nothing, logs nothing and returns that value. *)
Theorem init_built_rotation_is_noop
    (isoformat : Z -> string) (total_seconds : Z -> float)
    (environ : string -> option string)
    (new_ChatGroq : string -> string -> Outcome ChatGroq)
    (now0 : Z) (w0 : World) (cs : list Call) :
  let s := exec_all isoformat total_seconds cs
             (snd (DigitalChronicler_init environ new_ChatGroq now0 w0)) in
  config (fst s) = ChroniclerConfig_default environ /\
  config_rotate_groq_token s =
    (Return match environ "GROQ_API_KEY" with Some v => v | None => "" end, s).
Proof.
  intros s.
  assert (Hc : config (fst s) = ChroniclerConfig_default environ).
  { subst s.
    destruct (Frame.init_state environ new_ChatGroq now0 w0) as (m & w' & ->).
    rewrite Calls.exec_all_config_single; [reflexivity|].
    cbn. unfold len. cbn. lia. }
  split; [exact Hc|].
  clearbody s. destruct s as [self w]. cbn [fst] in Hc.
  unfold config_rotate_groq_token.
  rewrite Config.rotate_noop by (rewrite Hc; cbn; unfold len; cbn; lia).
  rewrite Calls.set_config_same. rewrite Hc. reflexivity.
Qed.

(* ====================================================================== *)
(** ** More on the statistics *)
(* ====================================================================== *)

Module Throughput.

(** Zero divided by the floored hours is zero, for any hours but NaN. *)
Lemma zero_over_floor (h : float) :
  is_nan h = false -> (0 / py_max h 0.01)%float = 0%float.
Proof.
  intros Hn. unfold py_max. destruct (h <? 0.01)%float eqn:E; [reflexivity|].
  apply Prim2SF_inj. rewrite div_spec.
  unfold is_nan in Hn. apply negb_false_iff in Hn.
  rewrite eqb_spec in Hn. rewrite ltb_spec in E.
  set (c := Prim2SF 0.01) in *. vm_compute in c. subst c.
  set (z := Prim2SF 0) in *. vm_compute in z. subst z.
  destruct (Prim2SF h) as [sx|sx| |sx mx ex].
  - destruct sx; discriminate E.
  - destruct sx; [discriminate E | reflexivity].
  - discriminate Hn.
  - destruct sx; [discriminate E | reflexivity].
Qed.

End Throughput.

(** X16: while nothing has been generated the throughput [get_stats] reports
    is exactly 0, at every clock reading whose elapsed hours are a number:
    before, at or after the start, and however long after. *)
Theorem get_stats_zero_throughput
    (total_seconds : Z -> float) (now : Z) (self : DigitalChronicler) (w : World) :
  articles_generated self = 0 ->
  is_nan (runtime_hours total_seconds now self) = false ->
  exists st,
    fst (get_stats total_seconds now (self, w)) = Return st /\
    stats_articles_per_hour st = 0%float.
Proof.
  intros Hg Hn. rewrite FloatGuard.get_stats_eq, Hg.
  eexists. split; [reflexivity|].
  cbn [stats_articles_per_hour]. apply Throughput.zero_over_floor. exact Hn.
Qed.

Lemma get_stats_zero_throughput_witness :
  exists st,
    fst (get_stats (fun us => (SF2Prim (binary_normalize prec emax us 0 false)
                               / 1000000)%float)
           86400000000 Sample.fresh)
    = Return st /\
    stats_articles_per_hour st = 0%float.
Proof.
  apply (get_stats_zero_throughput
           (fun us => (SF2Prim (binary_normalize prec emax us 0 false) / 1000000)%float)
           86400000000 (fst Sample.fresh) (snd Sample.fresh));
    reflexivity.
Defined.

(** X17: on an orchestrator built by [__init__], after any sequence of fewer
    than 2^53 calls [get_stats] returns, changes nothing, and reports as
    generated the number of [run_cycle] calls made, as researched 0, and as
    running time the hours elapsed since the construction. *)
Theorem get_stats_reports_run_cycles
    (isoformat : Z -> string) (total_seconds : Z -> float)
    (environ : string -> option string)
    (new_ChatGroq : string -> string -> Outcome ChatGroq)
    (now0 : Z) (w0 : World) (cs : list Call) (now : Z) :
  len cs < 2 ^ 53 ->
  let s := exec_all isoformat total_seconds cs
             (snd (DigitalChronicler_init environ new_ChatGroq now0 w0)) in
  exists st,
    get_stats total_seconds now s = (Return st, s) /\
    stats_articles_generated st = count_run_cycle cs /\
    stats_articles_researched st = 0 /\
    stats_run_time_hours st = (total_seconds (now - now0)%Z / 3600)%float.
Proof.
  intros Hl s.
  pose proof (Calls.exec_all_generated isoformat total_seconds cs
                (snd (DigitalChronicler_init environ new_ChatGroq now0 w0))) as Hg.
  pose proof (Calls.exec_all_fixed isoformat total_seconds cs
                (snd (DigitalChronicler_init environ new_ChatGroq now0 w0))) as Hf.
  fold s in Hg, Hf.
  destruct (Frame.init_state environ new_ChatGroq now0 w0) as (m & w' & E).
  rewrite E in Hg, Hf. cbn [fst snd articles_generated] in Hg.
  unfold fixed_part in Hf. cbn [fst snd] in Hf.
  injection Hf as _ _ _ Hr Hs _ _ _.
  cbn [articles_researched start_time] in Hr, Hs.
  assert (Hc : 0 <= count_run_cycle cs <= len cs).
  { unfold count_run_cycle, len.
    pose proof (filter_length_le is_run_cycle cs). lia. }
  clearbody s. destruct s as [self w]. cbn [fst] in *.
  destruct (FloatGuard.float_of_int_small (articles_generated self)) as [g Hfl];
    [lia|].
  pose proof (FloatGuard.get_stats_eq total_seconds now self w) as Hst.
  pose proof (Frame.get_stats_state total_seconds now (self, w)) as Hsame.
  rewrite Hfl in Hst.
  destruct (get_stats total_seconds now (self, w)) as [r s']. cbn [fst snd] in *.
  subst r s'. eexists. split; [reflexivity|].
  cbn [stats_articles_generated stats_articles_researched stats_run_time_hours].
  unfold runtime_hours. rewrite Hs.
  split; [lia | split; [exact Hr | reflexivity]].
Qed.

Lemma get_stats_reports_run_cycles_witness :
  let ts := fun us : Z =>
              (SF2Prim (binary_normalize prec emax us 0 false) / 1000000)%float in
  let cs := [Call_run_cycle 10; Call_get_stats 20; Call_run_cycle 30;
             Call_generate_similar_articles 40 "Quantum Computing"] in
  exists st,
    fst (get_stats ts 3600000000 (exec_all Sample.iso ts cs Sample.fresh)) = Return st /\
    stats_articles_generated st = 2 /\
    stats_run_time_hours st = 1%float.
Proof.
  intros ts cs.
  destruct (get_stats_reports_run_cycles Sample.iso ts (fun _ => None)
              (fun _ _ => Raise (Exception "no client")) 0 (mkWorld [] []) cs
              3600000000) as (st & E & Hg & _ & Hh).
  - unfold len. simpl. lia.
  - exists st. unfold Sample.fresh. rewrite E.
    split; [reflexivity | split; [exact Hg | exact Hh]].
Defined.

(** X18: [rotate_groq_token] can raise only with exactly one credential and
    an index other than 0 and -1: with none it returns the empty string,
    with two or more it repairs any index before reading the list. *)
Theorem rotate_groq_token_raises_iff (c : ChroniclerConfig) (w : World) :
  (exists e, fst (rotate_groq_token (c, w)) = Raise e) <->
  (len (groq_api_tokens c) = 1 /\
   (current_token_index c < -1 \/ 1 <= current_token_index c)).
Proof.
  destruct (Z_lt_ge_dec 1 (len (groq_api_tokens c))) as [H|H].
  - rewrite Rotation.rotate_eq by exact H. cbn [fst].
    destruct (Rotation.getitem_in_range (groq_api_tokens c)
                ((current_token_index c + 1) mod len (groq_api_tokens c)))
      as (t & -> & _); [apply Z.mod_pos_bound; lia|].
    split; [intros [e He]; discriminate | intros [H1 _]; lia].
  - rewrite Config.rotate_noop by lia. cbn [fst].
    unfold get_current_groq_token.
    destruct (groq_api_tokens c) as [|t [|t' ts]] eqn:E.
    + split; [intros [e He]; discriminate | intros [H1 _]; discriminate H1].
    + rewrite <- E.
      assert (Hl : len (groq_api_tokens c) = 1) by (rewrite E; reflexivity).
      set (i := current_token_index c).
      destruct (Z_lt_ge_dec i (-1)) as [Hlo|Hlo];
        [|destruct (Z_lt_ge_dec i 1) as [Hhi|Hhi]].
      * rewrite Rotation.getitem_out_of_range by lia.
        split; [intros _; split; [exact Hl | lia] | intros _; eexists; reflexivity].
      * assert (Hin : exists x, getitem (groq_api_tokens c) i = Return x).
        { destruct (Z_lt_ge_dec i 0) as [Hneg|Hnn].
          - rewrite Rotation.getitem_from_end by lia.
            destruct (Rotation.getitem_in_range (groq_api_tokens c)
                        (i + len (groq_api_tokens c))) as (x & -> & _); [lia|].
            eexists; reflexivity.
          - destruct (Rotation.getitem_in_range (groq_api_tokens c) i)
              as (x & -> & _); [lia|].
            eexists; reflexivity. }
        destruct Hin as [x ->].
        split; [intros [e He]; discriminate | intros [_ Hb]; lia].
      * rewrite Rotation.getitem_out_of_range by lia.
        split; [intros _; split; [exact Hl | lia] | intros _; eexists; reflexivity].
    + exfalso. unfold len in H. cbn [List.length] in H. lia.
Qed.

Lemma rotate_groq_token_raises_iff_witness :
  exists e, fst (rotate_groq_token (Sample.defaults ["k1"] 1, mkWorld [] [])) = Raise e.
Proof.
  apply (rotate_groq_token_raises_iff (Sample.defaults ["k1"] 1) (mkWorld [] [])).
  split; [reflexivity | right; simpl; lia].
Defined.

(* ====================================================================== *)
(** ** Concrete runs *)
(* ====================================================================== *)

Module Runs.
Import Sample.

Example fresh_state :
  model (fst fresh) = None /\
  groq_api_tokens (config (fst fresh)) = [""] /\
  log (snd fresh) = [(INFO, "Digital Chronicler initialized")].
Proof. repeat split. Qed.

Example refused_state :
  model (fst refused) = None /\
  log (snd refused) =
    [(ERROR, "Error setting up AI model: invalid api key");
     (INFO, "Digital Chronicler initialized")].
Proof. split; reflexivity. Qed.

Example rotate_two_tokens :
  rotate_groq_token (defaults ["k1"; "k2"] 1, mkWorld [] [])
  = (Return "k1",
     (defaults ["k1"; "k2"] 0,
      mkWorld [(INFO, "Rotated to Groq token index 0")] [])).
Proof. reflexivity. Qed.

Example index_from_the_end :
  get_current_groq_token (defaults ["k1"; "k2"] (-1)) = Return "k2" /\
  get_current_groq_token (defaults ["k1"; "k2"] 5)
  = Raise (IndexError "list index out of range").
Proof. split; reflexivity. Qed.

Example index_beyond_the_machine_word :
  get_current_groq_token (Sample.defaults ["k1"; "k2"] (2 ^ 63))
  = Raise (IndexError "cannot fit 'int' into an index-sized integer") /\
  get_current_groq_token (Sample.defaults ["k1"; "k2"] (2 ^ 63 - 1))
  = Raise (IndexError "list index out of range").
Proof. split; reflexivity. Qed.

Example clock_failure_in_run_cycle :
  run_cycle_at Sample.iso (Raise (OverflowError "timestamp out of range")) Sample.fresh
  = (Return [],
     (fst Sample.fresh,
      mkWorld [(INFO, "Digital Chronicler initialized");
               (ERROR, "Error in run_cycle: timestamp out of range")] [])).
Proof. reflexivity. Qed.

Example direct_input_without_model :
  fst (process_direct_input iso 0 "T" "general" "C" fresh)
  = Return (Some
      {| generated_title := "Custom Article: T";
         generated_content :=
           "**T**" ++ nl ++ nl ++ "C" ++ nl ++ nl
           ++ "This article was created using the Digital Chronicler platform.";
         topic := "general";
         source_name := "Direct Input";
         url := "";
         generation_timestamp := "2024-05-01T12:00:00";
         image_url := "";
         search_query := None |}).
Proof. reflexivity. Qed.

Example similar_to_quantum_computing :
  fst (generate_similar_articles iso 0 "Quantum Computing" fresh)
  = Return
      [ {| generated_title := "Related Story: Quantum Computing Analysis";
           generated_content :=
             "This article explores topics related to 'Quantum Computing' and provides additional context and analysis on the subject matter.";
           topic := "general";
           source_name := "Similar Articles Search";
           url := "https://example.com";
           generation_timestamp := "2024-05-01T12:00:00";
           image_url := "";
           search_query := Some "Quantum Computing" |} ].
Proof. reflexivity. Qed.

Example two_cycles_count_two :
  articles_generated
    (fst (snd (run_cycle iso 2 (snd (run_cycle iso 1 fresh))))) = 2.
Proof. reflexivity. Qed.

Example half_hour_two_articles :
  let self := set_articles_generated 2 (fst fresh) in
  fst (get_stats (fun us => (SF2Prim (binary_normalize prec emax us 0 false)
                             / 1000000)%float)
         1800000000 (self, snd fresh))
  = Return
      {| stats_articles_generated := 2;
         stats_articles_researched := 0;
         stats_articles_per_hour := 4;
         stats_run_time_hours := 0.5;
         stats_memory_stories := 0;
         stats_memory_urls := 0;
         stats_memory_titles := 0;
         stats_topic_trends := [("technology", 5); ("science", 3); ("politics", 2)] |}.
Proof. reflexivity. Qed.

End Runs.
